(** * devtools_protocol: sessions, the tab registry and process shutdown

    A shallow embedding of [devtools/session.py] and [devtools/browser.py].
    Python objects become records, dictionaries become finite maps, raised
    exceptions become values of [exn], and everything outside the two files
    (the child process, the pipe, the remote end of the protocol) becomes an
    explicit world that every operation threads through, together with a log
    of the calls made to it. *)

From stdpp Require Import gmap strings list fin_maps pretty.
From Stdlib Require Import ZArith Lia.

Set Warnings "-register-all".

Open Scope Z_scope.
Open Scope string_scope.

(** ** Python values and exceptions *)

(** The dynamically typed values that reach the modelled functions: arguments
    such as [width], [path] or [session_id], and decoded JSON messages. *)
Inductive pyval :=
| PyNone
| PyBool (b : bool)
| PyInt (z : Z)
| PyStr (s : string)
| PyList (l : list pyval)
| PyDict (d : gmap string pyval).

(** Python's truth test, as used by [if x:], [not x] and [x or y]. *)
Definition truthy (v : pyval) : bool :=
  match v with
  | PyNone => false
  | PyBool b => b
  | PyInt z => negb (Z.eqb z 0)
  | PyStr s => negb (String.eqb s "")
  | PyList l => negb (bool_decide (length l = 0%nat))
  | PyDict d => negb (bool_decide (size d = 0%nat))
  end.

(** [isinstance(v, str)]. *)
Definition isinstance_str (v : pyval) : bool :=
  match v with PyStr _ => true | _ => false end.

(** [key in d] and [d.get(key)] on a decoded JSON object [d]; nothing is
    found in a value that is no dictionary. Properties are stated with
    these two; what Python does on any value is [py_contains] and [py_item]
    below. *)
Definition py_in (key : string) (v : pyval) : bool :=
  match v with
  | PyDict d => bool_decide (is_Some (d !! key))
  | _ => false
  end.

Definition py_get (key : string) (v : pyval) : option pyval :=
  match v with
  | PyDict d => d !! key
  | _ => None
  end.

(** Whether [p] occurs in [s] as a run of consecutive characters. *)
Fixpoint occurs_in (p s : string) : bool :=
  String.prefix p s
  || match s with
     | EmptyString => false
     | String _ rest => occurs_in p rest
     end.

(** [repr(v)] of the values that can be a dictionary key. *)
Definition py_repr (v : pyval) : string :=
  match v with
  | PyNone => "None"
  | PyBool true => "True"
  | PyBool false => "False"
  | PyInt z => pretty z
  | PyStr s => s
  | PyList _ | PyDict _ => ""
  end.

(** [v == key] for a string [key]: only a string equals a string. *)
Definition is_str_eq (key : string) (v : pyval) : bool :=
  match v with
  | PyStr s => String.eqb s key
  | _ => false
  end.

(** The exceptions the sources raise, and those of the Python operations
    they use. [RuntimeError] carries the payload of
    [raise ... from Exception(response["error"])] when there is one. *)
Inductive exn :=
| TypeError (msg : string)
| ValueError (msg : string)
| KeyError (key : string)
| AttributeError (msg : string)
| RuntimeError (msg : string) (cause : option pyval).

Definition not_iterable : exn := TypeError "argument is not iterable".

Definition not_subscriptable : exn :=
  TypeError "object is not subscriptable with a string".

(** [for x in v], for any [v]: the elements of a list, the keys of a
    dictionary, the characters of a string; [None], booleans and integers
    raise [TypeError]. *)
Definition py_iter (v : pyval) : exn + list pyval :=
  match v with
  | PyList l => inr l
  | PyDict d => inr (PyStr <$> (map_to_list d).*1)
  | PyStr s => inr ((λ c, PyStr (String c EmptyString)) <$> String.list_ascii_of_string s)
  | PyNone | PyBool _ | PyInt _ => inl not_iterable
  end.

(** [key in v], for any [v]: a key of a dictionary, a substring of a string,
    an element of a list; [None], booleans and integers raise [TypeError]. *)
Definition py_contains (key : string) (v : pyval) : exn + bool :=
  match v with
  | PyDict d => inr (bool_decide (is_Some (d !! key)))
  | PyStr s => inr (occurs_in key s)
  | PyList l => inr (existsb (is_str_eq key) l)
  | PyNone | PyBool _ | PyInt _ => inl not_iterable
  end.

(** The exception of [v[key]] when there is no value to give: [KeyError] on
    a dictionary, [TypeError] on anything else. *)
Definition missing (key : string) (v : pyval) : exn :=
  match v with
  | PyDict _ => KeyError key
  | _ => not_subscriptable
  end.

(** [v[key]], for any [v]: the value under a key of a dictionary, [KeyError]
    when the key is missing; any other value raises [TypeError] on a string
    index. *)
Definition py_item (key : string) (v : pyval) : exn + pyval :=
  match v with
  | PyDict d =>
      match d !! key with
      | Some x => inr x
      | None => inl (KeyError key)
      end
  | _ => inl not_subscriptable
  end.

(** ** session.py *)

Module session.
Section WithCallback.

(** Callbacks are opaque to the session: it only stores them. *)
Context {Callback : Type}.

(** The state of a [Session] object. The [browser] attribute is a
    back-reference used only for [write_json], which [send_command] takes
    as an argument here. *)
Record Session := mk {
  session_id : string;
  message_id : Z;
  subscriptions : gmap string (Callback * bool);
}.

Definition set_message_id (n : Z) (self : Session) : Session :=
  mk (session_id self) n (subscriptions self).

Definition set_subscriptions (m : gmap string (Callback * bool)) (self : Session) : Session :=
  mk (session_id self) (message_id self) m.

Definition msg_not_str : string := "session_id must be a string".
Definition msg_duplicate : string :=
  "You are already subscribed to this string, duplicate subscriptions are not allowed.".
Definition msg_unknown : string :=
  "Cannot unsubscribe as string is not present in subscriptions".

(** [Session.__init__(self, browser, session_id)]. *)
Definition init (session_id : pyval) : exn + Session :=
  match session_id with
  | PyStr s => inr (mk s 0 ∅)
  | _ => inl (TypeError msg_not_str)
  end.

(** [Session.send_command(self, command, params=None)]: the result of
    [write_json] on the command that was built, and the session after the
    call. *)
Definition send_command {R : Type} (write_json : gmap string pyval → R)
    (command : string) (params : pyval) (self : Session) : R * Session :=
  let current_id := message_id self in
  let self := set_message_id (message_id self + 1) self in
  let json_command : gmap string pyval :=
    <["method" := PyStr command]> (<["id" := PyInt current_id]> ∅) in
  let json_command :=
    if truthy (PyStr (session_id self))
    then <["sessionId" := PyStr (session_id self)]> json_command
    else json_command in
  let json_command :=
    if truthy params then <["params" := params]> json_command
    else json_command in
  (write_json json_command, self).

(** Successive calls on one session; [write_json] hands the command back. *)
Fixpoint send_commands (calls : list (string * pyval)) (self : Session)
    : list (gmap string pyval) * Session :=
  match calls with
  | [] => ([], self)
  | (command, params) :: rest =>
      let '(c, self) := send_command id command params self in
      let '(cs, self) := send_commands rest self in
      (c :: cs, self)
  end.

(** [Session.subscribe(self, string, callback, repeating)]. *)
Definition subscribe (string : string) (callback : Callback) (repeating : bool)
    (self : Session) : (exn + unit) * Session :=
  if bool_decide (is_Some (subscriptions self !! string))
  then (inl (ValueError msg_duplicate), self)
  else (inr tt,
        set_subscriptions (<[string := (callback, repeating)]> (subscriptions self)) self).

(** [Session.unsubscribe(self, string)]. *)
Definition unsubscribe (string : string) (self : Session) : (exn + unit) * Session :=
  if negb (bool_decide (is_Some (subscriptions self !! string)))
  then (inl (ValueError msg_unknown), self)
  else (inr tt, set_subscriptions (delete string (subscriptions self)) self).

End WithCallback.
Arguments Session : clear implicits.
End session.

(** ** browser.py *)

Module browser.

(** Modelled from the spec: the [Tab] class (devtools/tab.py) is not among the
    sources. A Tab is a page-kind Target with attached Sessions: its target
    identifier and the identifiers of the sessions attached to it. *)
Record Tab := mkTab {
  target_id : string;
  sessions : list string;
}.

(** The attributes of a [Browser] object that the modelled methods read or
    write. [loop] is the truth value of [self.loop]; [tabs] is the registry
    (an [OrderedDict]; nothing modelled here enumerates it, so its order is
    left out); [temp_dir] is the name of the temporary directory, or [None]
    once [del self.temp_dir] has removed the attribute. *)
Record Browser := mkBrowser {
  headless : bool;
  debug : bool;
  loop : bool;
  tabs : gmap string Tab;
  temp_dir : option string;
}.

Definition set_tabs (m : gmap string Tab) (b : Browser) : Browser :=
  mkBrowser (headless b) (debug b) (loop b) m (temp_dir b).

(** [del self.temp_dir]. *)
Definition del_temp_dir (b : Browser) : Browser :=
  mkBrowser (headless b) (debug b) (loop b) (tabs b) None.

(** The argument of [remove_tab] and [close_tab]: a target identifier, or
    a [Tab] whose identifier is then used. *)
Inductive tab_ref :=
| ById (id : string)
| ByTab (tab : Tab).

Definition ref_id (r : tab_ref) : string :=
  match r with
  | ById id => id
  | ByTab tab => target_id tab
  end.

(** A call that leaves the two source files, in the order it is made. *)
Inductive event :=
| SendCommand (command : string) (params : pyval)
| PipeClose
| Poll
| Wait (timeout : Z)
| Taskkill
| Terminate
| Kill
| CleanTemp
| Rmtree
| CreateSession (target_id : string)
| Warn (msg : string)
| Print (msg : string).

(** How [shutil.rmtree] ends in [_clean_temp]. *)
Inductive rmtree_outcome :=
| Removed
| FileNotFound
| PermissionDenied
| OtherError (msg : string).

(** The collaborators of the two files, as an interface over a world [W]:
    the child process ([Popen.poll], [Popen.wait], [terminate], [kill],
    [taskkill]), the pipe, the protocol ([send_command] answers with the
    decoded response or raises), [Tab.create_session], the temporary
    directory and [platform.system()]. [env_poll] gives the return code, or
    [None] while the child runs; [env_wait] gives the return code, or [None]
    when the wait raises instead ([TimeoutExpired]); [env_cleanup] gives the
    message of the exception of [temp_dir.cleanup()], if it raises one. *)
Class Env (W : Type) := {
  platform_system : W → string;
  env_poll : W → option Z * W;
  env_wait : Z → W → option Z * W;
  env_send_command : string → pyval → W → (exn + pyval) * W;
  env_pipe_close : W → W;
  env_taskkill : W → W;
  env_terminate : W → W;
  env_kill : W → W;
  env_create_session : string → W → (exn + string) * W;
  env_cleanup : W → option string * W;
  env_rmtree : W → rmtree_outcome * W;
}.

Section WithEnv.

Context {W : Type} `{Env W}.

(** The object, the world and the calls made so far. *)
Record state := mkState {
  self : Browser;
  world : W;
  log : list event;
}.

(** Computations that may raise; the state survives the exception, as the
    mutations made before a Python [raise] do. *)
Definition M (A : Type) : Type := state → (exn + A) * state.

Definition ret {A} (a : A) : M A := λ s, (inr a, s).

Definition raise {A} (e : exn) : M A := λ s, (inl e, s).

Definition bind {A B} (c : M A) (k : A → M B) : M B :=
  λ s, match c s with
       | (inr a, s') => k a s'
       | (inl e, s') => (inl e, s')
       end.

Notation "'let!' x ':=' c 'in' k" := (bind c (λ x, k))
  (at level 10, x name, c at level 100, k at level 200).

Definition get_self : M Browser := λ s, (inr (self s), s).

Definition put_self (b : Browser) : M unit :=
  λ s, (inr tt, mkState b (world s) (log s)).

(** One call to the world: the event is logged, the world moves on. *)
Definition call {A} (e : event) (f : W → A * W) : M A :=
  λ s, let '(a, w) := f (world s) in
       (inr a, mkState (self s) w (log s ++ [e])).

Definition emit (e : event) : M unit := call e (λ w, (tt, w)).

Definition warn (msg : string) : M unit := emit (Warn msg).

(** [if self.debug: print(msg, file=sys.stderr)]. *)
Definition debug_print (msg : string) : M unit :=
  let! b := get_self in
  if debug b then emit (Print msg) else ret tt.

(** [self.send_command(command, params)], inherited from [Target]: the
    response, or the exception it raises. *)
Definition send_command (command : string) (params : pyval) : M pyval :=
  let! r := call (SendCommand command params) (env_send_command command params) in
  match r with
  | inr response => ret response
  | inl e => raise e
  end.

Definition no_eventloop : string :=
  "There is no eventloop, or was not passed to browser. Cannot use async methods".

(** *** BrowserProcess: shutdown *)

Definition returncode_value (rc : option Z) : pyval :=
  match rc with
  | None => PyNone
  | Some c => PyInt c
  end.

(** [BrowserProcess._is_closed(self, wait=0)]. *)
Definition _is_closed (wait : Z) : M bool :=
  if negb (truthy (PyInt wait)) then
    let! rc := call Poll env_poll in
    if negb (truthy (returncode_value rc)) then ret false else ret true
  else
    let! rc := call (Wait wait) (env_wait wait) in
    match rc with
    | Some _ => ret true
    | None => ret false
    end.

(** [BrowserProcess._is_closed_async(self, wait=0)]: whether
    [wait_for(self.subprocess.wait(), wait)] returned. *)
Definition _is_closed_async (wait : Z) : M bool :=
  let! rc := call (Wait wait) (env_wait wait) in
  match rc with
  | Some _ => ret true
  | None => ret false
  end.

Definition could_not_kill : exn :=
  RuntimeError "Couldn't kill browser subprocess" None.

(** [BrowserProcess._sync_close(self)]. *)
Definition _sync_close : M unit :=
  let! closed := _is_closed 0 in
  if closed then debug_print "Browser was already closed." else
  let! _ := send_command "Browser.close" PyNone in
  let! closed := _is_closed 0 in
  if closed then debug_print "Browser.close method closed browser" else
  let! _ := call PipeClose (λ w, (tt, env_pipe_close w)) in
  let! closed := _is_closed 1 in
  if closed
  then debug_print "pipe.close() (or slow Browser.close) method closed browser"
  else
  let! system := (λ s, (inr (platform_system (world s)), s)) in
  if String.eqb system "Windows" then
    let! closed := _is_closed 0 in
    if negb closed then
      let! _ := call Taskkill (λ w, (tt, env_taskkill w)) in
      let! closed := _is_closed 2 in
      if closed then ret tt else raise could_not_kill
    else ret tt
  else
    let! _ := call Terminate (λ w, (tt, env_terminate w)) in
    let! closed := _is_closed 0 in
    if closed then debug_print "terminate() closed the browser" else
    let! _ := call Kill (λ w, (tt, env_kill w)) in
    let! closed := _is_closed 0 in
    if closed then debug_print "kill() closed the browser" else ret tt.

(** [await asyncio.wait([self.send_command("Browser.close")], timeout=1)]:
    the command is issued; its outcome, an exception included, stays in the
    task and is not looked at. *)
Definition send_command_unchecked (command : string) (params : pyval) : M unit :=
  let! _ := call (SendCommand command params) (env_send_command command params) in
  ret tt.

(** [BrowserProcess._async_close(self)]. *)
Definition _async_close : M unit :=
  let! closed := _is_closed_async 0 in
  if closed then debug_print "Browser was already closed." else
  let! _ := send_command_unchecked "Browser.close" PyNone in
  let! closed := _is_closed_async 0 in
  if closed then debug_print "Browser.close method closed browser" else
  let! _ := call PipeClose (λ w, (tt, env_pipe_close w)) in
  let! closed := _is_closed_async 1 in
  if closed then debug_print "pipe.close() method closed browser" else
  let! system := (λ s, (inr (platform_system (world s)), s)) in
  if String.eqb system "Windows" then
    let! closed := _is_closed_async 0 in
    if negb closed then
      let! _ := call Taskkill (λ w, (tt, env_taskkill w)) in
      let! closed := _is_closed_async 2 in
      if closed then ret tt else raise could_not_kill
    else ret tt
  else
    let! _ := call Terminate (λ w, (tt, env_terminate w)) in
    let! closed := _is_closed_async 0 in
    if closed then debug_print "terminate() closed the browser" else
    let! _ := call Kill (λ w, (tt, env_kill w)) in
    let! closed := _is_closed_async 0 in
    if closed then debug_print "kill() closed the browser" else ret tt.

Definition no_temp_dir : string :=
  "'Browser' object has no attribute 'temp_dir'".

Definition not_deleted : string :=
  "The temporary directory could not be deleted, execution will continue. ".

(** [BrowserProcess._clean_temp(self)]: every failure becomes a warning,
    the [AttributeError] of reading [self.temp_dir] after it was deleted
    included; on Windows a successful [rmtree] is followed by
    [del self.temp_dir]. *)
Definition _clean_temp : M unit :=
  let! b := get_self in
  let! _ := match temp_dir b with
            | Some _ =>
                let! failure := call CleanTemp env_cleanup in
                match failure with
                | Some msg => warn msg
                | None => ret tt
                end
            | None => warn no_temp_dir
            end in
  let! system := (λ s, (inr (platform_system (world s)), s)) in
  if String.eqb system "Windows" then
    match temp_dir b with
    | Some _ =>
        let! outcome := call Rmtree env_rmtree in
        match outcome with
        | Removed => put_self (del_temp_dir b)
        | FileNotFound => ret tt
        | PermissionDenied =>
            warn "The temporary directory could not be deleted, due to permission error, execution will continue."
        | OtherError msg => warn (not_deleted ++ msg)
        end
    | None => warn (not_deleted ++ "<class 'AttributeError'>: " ++ no_temp_dir)
    end
  else ret tt.

(** The last statement of [close]:
    [if self.debug: print(f"Tempfile still exists?: {...self.temp_dir.name...}")].
    Reading [self.temp_dir] raises [AttributeError] once the attribute was
    deleted. *)
Definition closing_line : M unit :=
  let! b := get_self in
  if debug b then
    match temp_dir b with
    | Some _ => emit (Print "Tempfile still exists?")
    | None => raise (AttributeError no_temp_dir)
    end
  else ret tt.

(** [BrowserProcess.close(self)]. With a loop the three steps are the body
    of the task that [close] returns, run here as the awaiting caller sees
    it; the closing debug line, printed without its value here, is only
    reached without a loop. *)
Definition close : M unit :=
  let! b := get_self in
  if loop b then
    let! _ := _async_close in
    let! _ := call PipeClose (λ w, (tt, env_pipe_close w)) in
    _clean_temp
  else
    let! _ := _sync_close in
    let! _ := call PipeClose (λ w, (tt, env_pipe_close w)) in
    let! _ := _clean_temp in
    closing_line.

(** *** Browser: the tab registry *)

(** [Browser.add_tab(self, tab)]. *)
Definition add_tab (tab : Tab) : M unit :=
  let! b := get_self in
  put_self (set_tabs (<[target_id tab := tab]> (tabs b)) b).

(** [Browser.remove_tab(self, target_id)]; [del] on an absent key raises
    [KeyError]. *)
Definition remove_tab (r : tab_ref) : M unit :=
  let id := ref_id r in
  let! b := get_self in
  match tabs b !! id with
  | Some _ => put_self (set_tabs (delete id (tabs b)) b)
  | None => raise (KeyError id)
  end.

(** [v[key]] and [key in v] on a value read from a response. *)
Definition item (key : string) (v : pyval) : M pyval :=
  match py_item key v with
  | inr x => ret x
  | inl e => raise e
  end.

Definition contains (key : string) (v : pyval) : M bool :=
  match py_contains key v with
  | inr b => ret b
  | inl e => raise e
  end.

(** A target identifier read from a response. In the protocol it is a JSON
    string; the registry is keyed by strings, and any other value is
    refused here. *)
Definition item_str (key : string) (v : pyval) : M string :=
  let! x := item key v in
  match x with
  | PyStr s => ret s
  | _ => raise (TypeError "target identifier is not a string")
  end.

(** [await tab.create_session()] on a tab object: the session that the
    remote end attaches is recorded in the tab. *)
Definition Tab_create_session (tab : Tab) : M Tab :=
  let! r := call (CreateSession (target_id tab)) (env_create_session (target_id tab)) in
  match r with
  | inr sid => ret (mkTab (target_id tab) (sessions tab ++ [sid]))
  | inl e => raise e
  end.

Definition headless_only : string :=
  "Width and height only work for headless chrome mode, they will be ignored.".

(** [Browser.create_tab(self, url, width=None, height=None)]. The new tab is
    registered before its session is created; the registry holds the same
    object, so the session shows in the registered tab. *)
Definition create_tab (url width height : pyval) : M Tab :=
  let! b := get_self in
  if negb (loop b) then raise (RuntimeError no_eventloop None) else
  let! size :=
    if headless b && (truthy width || truthy height)
    then let! _ := warn headless_only in ret (PyNone, PyNone)
    else ret (width, height) in
  let width := fst size in
  let height := snd size in
  let params : gmap string pyval := {["url" := url]} in
  let params := if truthy width then <["width" := width]> params else params in
  let params := if truthy height then <["height" := height]> params else params in
  let! response := send_command "Target.createTarget" (PyDict params) in
  let! failed := contains "error" response in
  if failed
  then raise (RuntimeError "Could not create tab" (py_get "error" response))
  else
  let! result := item "result" response in
  let! target_id := item_str "targetId" result in
  let new_tab := mkTab target_id [] in
  let! _ := add_tab new_tab in
  let! new_tab := Tab_create_session new_tab in
  let! _ := add_tab new_tab in
  ret new_tab.

(** [Browser.close_tab(self, target_id)]. *)
Definition close_tab (r : tab_ref) : M pyval :=
  let! b := get_self in
  if negb (loop b) then raise (RuntimeError no_eventloop None) else
  let target_id := ref_id r in
  let! response :=
    send_command "Target.closeTarget" (PyDict {["targetId" := PyStr target_id]}) in
  let! _ := remove_tab (ById target_id) in
  let! failed := contains "error" response in
  if failed
  then raise (RuntimeError "Could not close tab" (py_get "error" response))
  else ret response.

Definition is_page (v : pyval) : bool :=
  match v with
  | PyStr s => String.eqb s "page"
  | _ => false
  end.

(** The body of the [for] loop of [populate_targets], once per entry of
    [targetInfos]. *)
Fixpoint populate_loop (targetInfos : list pyval) : M unit :=
  match targetInfos with
  | [] => ret tt
  | json_response :: rest =>
      let! type := item "type" json_response in
      let! _ :=
        if is_page type then
          let! target_id := item_str "targetId" json_response in
          let! b := get_self in
          if bool_decide (is_Some (tabs b !! target_id)) then ret tt else
            let new_tab := mkTab target_id [] in
            let! new_tab := Tab_create_session new_tab in
            let! _ := add_tab new_tab in
            debug_print ("The target " ++ target_id ++ " was added")
        else ret tt in
      populate_loop rest
  end.

(** [Browser.populate_targets(self)]. *)
Definition populate_targets : M unit :=
  let! b := get_self in
  let! _ := if negb (loop b)
            then warn "This method requires use of an event loop (asyncio)."
            else ret tt in
  let! response := send_command "Target.getTargets" PyNone in
  let! failed := contains "error" response in
  if failed
  then raise (RuntimeError "Could not get targets" (py_get "error" response))
  else
  let! result := item "result" response in
  let! targetInfos := item "targetInfos" result in
  match py_iter targetInfos with
  | inr l => populate_loop l
  | inl e => raise e
  end.

End WithEnv.
Arguments state : clear implicits.
Arguments M : clear implicits.

(** *** Construction *)

(** What the constructor takes from its surroundings: [os.environ], the
    module-level [default_path = which_browser()] ([None] or a path) and the
    name of the temporary directory it creates. *)
Record surroundings := mkSurroundings {
  environ : gmap string string;
  default_path : pyval;
  temp_dir_name : string;
}.

(** The attributes set by [BrowserProcess.__init__] up to [self._env]. *)
Record BrowserProcess := mkBrowserProcess {
  bp_headless : pyval;
  bp_debug : pyval;
  _env : gmap string pyval;
}.

Definition no_browser : string :=
  "Could not find an acceptable browser. Please set environmental variable BROWSER_PATH or pass `path=/path/to/browser` into the Browser() constructor.".

(** [os.environ.get("BROWSER_PATH", None)]. *)
Definition environ_get (key : string) (env : gmap string string) : pyval :=
  match env !! key with
  | Some v => PyStr v
  | None => PyNone
  end.

(** [BrowserProcess.__init__(self, path=None, headless=True, ..., debug=False)],
    from the start to [self._env = new_env]: the attributes it sets, or the
    exception it raises. The loop defaults, the pipe and the spawn that
    follow read [self._env] and do not change it. *)
Definition BrowserProcess_init (sur : surroundings) (path headless debug : pyval)
    : exn + BrowserProcess :=
  let new_env : gmap string pyval := PyStr <$> environ sur in
  let path := if negb (truthy path) then environ_get "BROWSER_PATH" (environ sur) else path in
  let path := if negb (truthy path) then default_path sur else path in
  if truthy path then
    let new_env := <["BROWSER_PATH" := path]> new_env in
    let new_env := <["USER_DATA_DIR" := PyStr (temp_dir_name sur)]> new_env in
    let new_env :=
      if truthy headless then <["HEADLESS" := PyStr "--headless"]> new_env else new_env in
    inr (mkBrowserProcess headless debug new_env)
  else inl (RuntimeError no_browser None).

(** The classes that [Browser] is built from. *)
Inductive class :=
| class_Browser
| class_BrowserProcess
| class_Target
| class_object.

#[global] Instance class_eq_dec : EqDecision class.
Proof. solve_decision. Defined.

(** [Browser.__mro__] for [class Browser(BrowserProcess, Target)], where
    [class BrowserProcess()] has no base but [object]. Modelled from the
    spec: the class [Target] (devtools/target.py) is not among the sources;
    the spec gives it no parent, so it is taken to derive from [object]
    alone. *)
Definition Browser_mro : list class :=
  [class_Browser; class_BrowserProcess; class_Target; class_object].

(** [super(c, self)] on an instance whose class has the resolution order
    [mro]: attributes are looked up from the class that follows [c]. Each of
    the four classes has an [__init__] of its own, so that class is where
    [super(c, self).__init__] is found. *)
Fixpoint next_class (c : class) (mro : list class) : option class :=
  match mro with
  | [] => None
  | x :: rest => if bool_decide (x = c) then head rest else next_class c rest
  end.

Definition super (c : class) : option class := next_class c Browser_mro.

(** The arguments of a call of [__init__], [self] apart: positional ones,
    which are values or the browser object itself, and keyword ones. *)
Inductive argument :=
| Value (v : pyval)
| Self.

Record arguments := mkArguments {
  positional : list argument;
  keywords : list (string * pyval);
}.

Definition object_init_msg : string :=
  "object.__init__() takes exactly one argument (the instance to initialize)".

(** [object.__init__], reached from a class that defines [__init__]: it
    accepts no argument. *)
Definition object_init (a : arguments) : exn + unit :=
  match positional a, keywords a with
  | [], [] => inr tt
  | _, _ => inl (TypeError object_init_msg)
  end.

(** The keyword parameters of [BrowserProcess.__init__]. *)
Definition BrowserProcess_parameters : list string :=
  ["path"; "headless"; "loop"; "executor"; "debug"; "debug_browser"].

Fixpoint keyword (name : string) (default : pyval) (kw : list (string * pyval))
    : pyval :=
  match kw with
  | [] => default
  | (k, v) :: rest => if String.eqb k name then v else keyword name default rest
  end.

Definition unexpected_keyword (kw : list (string * pyval)) : option string :=
  head (List.filter (λ k, negb (existsb (String.eqb k) BrowserProcess_parameters))
          kw.*1).

(** [c.__init__(self, ...)] with the arguments [a], as far as the sources
    have it: [object]'s, and [BrowserProcess]'s when every argument is given
    by keyword, as in its one call. [None] stands for a call that is not
    modelled: [Target.__init__], which is not among the sources, a
    positional call of [BrowserProcess.__init__], and [Browser.__init__]
    itself. The result of a constructor that returns is the process
    attributes it has set, if it sets any. *)
Definition init_of (sur : surroundings) (c : class) (a : arguments)
    : option (exn + option BrowserProcess) :=
  match c with
  | class_object =>
      Some (match object_init a with
            | inl e => inl e
            | inr _ => inr None
            end)
  | class_BrowserProcess =>
      match positional a with
      | [] =>
          Some (match unexpected_keyword (keywords a) with
                | Some k =>
                    inl (TypeError ("__init__() got an unexpected keyword argument " ++ k))
                | None =>
                    match BrowserProcess_init sur
                            (keyword "path" PyNone (keywords a))
                            (keyword "headless" (PyBool true) (keywords a))
                            (keyword "debug" (PyBool false) (keywords a)) with
                    | inl e => inl e
                    | inr bp => inr (Some bp)
                    end
                end)
      | _ :: _ => None
      end
  | class_Target => None
  | class_Browser => None
  end.

(** The arguments of the two [super] calls of [Browser.__init__]. *)
Definition target_arguments : arguments :=
  mkArguments [Value (PyStr "0"); Self] [].

Definition process_arguments (kwargs : list (string * pyval)) : arguments :=
  mkArguments []
    ([("path", PyNone); ("headless", PyBool true); ("debug", PyBool false)] ++ kwargs).

(** [Browser.__init__(self, path=None, headless=True, debug=False, **kwargs)].
    After [self.tabs] and [self.protocol] are set, line 341 calls
    [super(Target, self).__init__("0", self)]; when that returns, the root
    session is added and the last line calls
    [super(BrowserProcess, self).__init__(path=None, headless=True, debug=False, **kwargs)].
    The parameters [path] and [headless] occur nowhere in the body, and
    [debug] only in the construction of the protocol. *)
Definition Browser_init (sur : surroundings) (path headless debug : pyval)
    (kwargs : list (string * pyval)) : option (exn + option BrowserProcess) :=
  c ← super class_Target;
  r ← init_of sur c target_arguments;
  match r with
  | inl e => Some (inl e)
  | inr _ =>
      c' ← super class_BrowserProcess;
      init_of sur c' (process_arguments kwargs)
  end.

(** The executable path a constructed object runs. *)
Definition browser_path (r : exn + BrowserProcess) : option pyval :=
  match r with
  | inr bp => _env bp !! "BROWSER_PATH"
  | inl _ => None
  end.

(** *** A substitute child process *)

(** A scripted stand-in for the collaborators: a child that is running
    ([None]) or has exited with a code, and that exits, when a call reaches
    it while it runs, with the code [fake_reacts] gives for that call, if
    any; scripted protocol responses and session attachments; a temporary
    directory that is removed without trouble. A wait with timeout 0 is only
    made through [asyncio.wait_for], which gives the awaited [wait()] no turn
    of the loop and times out, exited child or not. *)
Record fake := mkFake {
  fake_platform : string;
  fake_returncode : option Z;
  fake_reacts : event → option Z;
  fake_responds : string → pyval → exn + pyval;
  fake_attach : string → exn + string;
}.

Definition fake_reach (e : event) (f : fake) : fake :=
  match fake_returncode f with
  | Some _ => f
  | None =>
      mkFake (fake_platform f) (fake_reacts f e) (fake_reacts f)
             (fake_responds f) (fake_attach f)
  end.

#[export] Instance fake_env : Env fake := {
  platform_system := fake_platform;
  env_poll f := (fake_returncode f, f);
  env_wait timeout f := (if Z.eqb timeout 0 then None else fake_returncode f, f);
  env_send_command c p f := (fake_responds f c p, fake_reach (SendCommand c p) f);
  env_pipe_close := fake_reach PipeClose;
  env_taskkill := fake_reach Taskkill;
  env_terminate := fake_reach Terminate;
  env_kill := fake_reach Kill;
  env_create_session t f := (fake_attach f t, f);
  env_cleanup f := (None, f);
  env_rmtree f := (Removed, f);
}.

(** Children used to run the code: one that has already exited with [code],
    one that runs and exits with [code] when the [Browser.close] command
    reaches it, and one that runs and never exits. *)
Definition no_reaction (e : event) : option Z := None.

Definition exits_on_close_command (code : Z) (e : event) : option Z :=
  match e with
  | SendCommand command _ =>
      if String.eqb command "Browser.close" then Some code else None
  | _ => None
  end.

Definition empty_response (command : string) (params : pyval) : exn + pyval :=
  inr (PyDict ∅).

Definition attach_ok (target_id : string) : exn + string :=
  inr ("session-of-" ++ target_id).

Definition exited_child (platform : string) (code : Z) : fake :=
  mkFake platform (Some code) no_reaction empty_response attach_ok.

Definition obedient_child (platform : string) (code : Z) : fake :=
  mkFake platform None (exits_on_close_command code) empty_response attach_ok.

Definition stubborn_child (platform : string) : fake :=
  mkFake platform None no_reaction empty_response attach_ok.

(** A pipe that has been closed refuses the write of a further command. *)
Definition closed_pipe (command : string) (params : pyval) : exn + pyval :=
  inl (ValueError "I/O operation on closed file").

Definition exited_child_closed_pipe (platform : string) (code : Z) : fake :=
  mkFake platform (Some code) no_reaction closed_pipe attach_ok.

(** A remote end with three targets, two of them pages, that creates the
    target [T9] on request and answers a close request with [closing]. *)
Definition target_info (type target_id : string) : pyval :=
  PyDict (<["type" := PyStr type]> {["targetId" := PyStr target_id]}).

Definition three_targets : list pyval :=
  [target_info "page" "T1"; target_info "browser" "B0"; target_info "page" "T2"].

Definition result_of (v : pyval) : pyval := PyDict {["result" := v]}.

Definition error_of (v : pyval) : pyval := PyDict {["error" := v]}.

Definition remote (closing : pyval) (command : string) (params : pyval) : exn + pyval :=
  if String.eqb command "Target.createTarget"
  then inr (result_of (PyDict {["targetId" := PyStr "T9"]}))
  else if String.eqb command "Target.getTargets"
  then inr (result_of (PyDict {["targetInfos" := PyList three_targets]}))
  else inr closing.

Definition remote_browser (closing : pyval) : fake :=
  mkFake "Linux" None no_reaction (remote closing) attach_ok.

(** A [Browser] object with the given flags and registry, and the start of a
    run: that object in a world, nothing logged yet. *)
Definition handle (headless loop : bool) (tabs : gmap string Tab) : Browser :=
  mkBrowser headless false loop tabs (Some "/tmp/profile").

Definition start {W : Type} (b : Browser) (w : W) : state W := mkState b w [].

(** Surroundings used to run the constructors: with and without the
    [BROWSER_PATH] override, no browser found by [which_browser()]. *)
Definition with_override : surroundings :=
  mkSurroundings {["BROWSER_PATH" := "/usr/bin/chromium"]} PyNone "/tmp/profile".

Definition bare : surroundings :=
  mkSurroundings ∅ PyNone "/tmp/profile".

Definition tab_T1 : Tab := mkTab "T1" ["session-of-T1"].

(** [info], an entry of [targetInfos], is a page-kind target with identifier
    [k]. *)
Definition page_target (info : pyval) (k : string) : Prop :=
  (∃ type, py_get "type" info = Some type ∧ is_page type = true)
  ∧ py_get "targetId" info = Some (PyStr k).

(** The loop of [populate_targets] has nothing to do for [info]: it has a
    type, and if that is the page type, its identifier is registered. *)
Definition settled (registry : gmap string Tab) (info : pyval) : Prop :=
  ∃ type, py_get "type" info = Some type
    ∧ (is_page type = true →
       ∃ k, py_get "targetId" info = Some (PyStr k) ∧ is_Some (registry !! k)).

(** The list that a [Target.getTargets] response enumerates. *)
Definition enumerates (response : pyval) (targetInfos : list pyval) : Prop :=
  py_in "error" response = false
  ∧ ∃ result, py_get "result" response = Some result
      ∧ py_get "targetInfos" result = Some (PyList targetInfos).

(** *** Sessions of the browser target *)

Section Sessions.

Context {W : Type} `{Env W}.

Notation "'let!' x ':=' c 'in' k" := (bind c (λ x, k))
  (at level 10, x name, c at level 100, k at level 200).

(** [BrowserProcess._check_session(self, response)], the callback of
    [Target.detachedFromTarget]: it acts on [self.protocol.sessions], the
    dictionary from session identifiers to sessions, taken here as an
    argument. Its keys are strings, so [del] on [None], a boolean or an
    integer raises [KeyError], and on a list or dictionary [TypeError]. *)
Definition _check_session {S : Type} (response : pyval) (sessions : gmap string S)
    : exn + gmap string S :=
  match py_item "params" response with
  | inl e => inl e
  | inr params =>
      match py_item "sessionId" params with
      | inl e => inl e
      | inr (PyStr session_id) =>
          match sessions !! session_id with
          | Some _ => inr (delete session_id sessions)
          | None => inl (KeyError session_id)
          end
      | inr (PyList _) | inr (PyDict _) => inl (TypeError "unhashable type")
      | inr other => inl (KeyError (py_repr other))
      end
  end.

Definition experimental : string :=
  "Creating new sessions on Browser() only works with some versions of Chrome, it is experimental.".

(** [Browser.create_session(self)]. [add_session] is inherited from [Target],
    which is not among the sources; it is an argument here. *)
Definition create_session {Callback : Type}
    (add_session : session.Session Callback → M W unit)
    : M W (session.Session Callback) :=
  let! b := get_self in
  if negb (loop b) then raise (RuntimeError no_eventloop None) else
  let! _ := warn experimental in
  let! response := send_command "Target.attachToBrowserTarget" PyNone in
  let! failed := contains "error" response in
  if failed
  then raise (RuntimeError "Could not create session" (py_get "error" response))
  else
  let! result := item "result" response in
  let! session_id := item "sessionId" result in
  match session.init session_id with
  | inl e => raise e
  | inr new_session =>
      let! _ := add_session new_session in
      ret new_session
  end.

End Sessions.

(** *** Reading a log *)

Definition is_print (e : event) : bool :=
  match e with
  | Print _ => true
  | _ => false
  end.

(** The calls of a log, the debug output left out. *)
Definition world_calls (l : list event) : list event :=
  List.filter (λ e, negb (is_print e)) l.

(** What reaches the child process or the remote end: a command, or one of
    the three ways to stop the child. *)
Definition is_signal (e : event) : bool :=
  match e with
  | SendCommand _ _ | Taskkill | Terminate | Kill => true
  | _ => false
  end.

(** The stages of shutdown in the order of the source, with the tests of the
    child between them: blocking and with a loop, off Windows and on it. *)
Definition close_command : event := SendCommand "Browser.close" PyNone.

Definition sync_stages_posix : list event :=
  [Poll; close_command; Poll; PipeClose; Wait 1; Terminate; Poll; Kill; Poll].

Definition sync_stages_windows : list event :=
  [Poll; close_command; Poll; PipeClose; Wait 1; Poll; Taskkill; Wait 2].

Definition async_stages_posix : list event :=
  [Wait 0; close_command; Wait 0; PipeClose; Wait 1; Terminate; Wait 0; Kill; Wait 0].

Definition async_stages_windows : list event :=
  [Wait 0; close_command; Wait 0; PipeClose; Wait 1; Wait 0; Taskkill; Wait 2].

(** A remote end that answers every command with an error payload, and one
    whose session attachment fails. *)
Definition failing_remote : fake :=
  mkFake "Linux" None no_reaction
    (λ _ _, inr (error_of (PyStr "Not allowed"))) attach_ok.



End browser.

(** * Properties of session.py *)

Section SessionProperties.

Context {Callback : Type}.
Implicit Types (self : session.Session Callback) (name : string).

Lemma send_command_id command params self :
  (session.send_command id command params self).1 !! "id"
  = Some (PyInt (session.message_id self)).
Proof.
  unfold session.send_command; simpl.
  destruct (negb (String.eqb _ _)), (truthy params); simpl;
    repeat (rewrite lookup_insert_ne by done); by rewrite lookup_insert_eq.
Qed.

Lemma send_command_sessionId command params self :
  (session.send_command id command params self).1 !! "sessionId"
  = if String.eqb (session.session_id self) "" then None
    else Some (PyStr (session.session_id self)).
Proof.
  unfold session.send_command; simpl.
  destruct (String.eqb _ _), (truthy params); simpl;
    repeat (rewrite lookup_insert_ne by done);
    first [ by rewrite lookup_insert_eq | by rewrite lookup_empty ].
Qed.

Lemma send_commands_cons command params rest self :
  session.send_commands ((command, params) :: rest) self
  = let r := session.send_commands rest
               (session.set_message_id (session.message_id self + 1) self) in
    ((session.send_command id command params self).1 :: r.1, r.2).
Proof.
  cbn [session.send_commands]. unfold session.send_command; cbn beta zeta iota.
  by destruct (session.send_commands rest _).
Qed.

Lemma send_commands_lookup calls : ∀ self (i : nat) c,
  (session.send_commands calls self).1 !! i = Some c →
  c !! "id" = Some (PyInt (session.message_id self + Z.of_nat i))
  ∧ c !! "sessionId" = (if String.eqb (session.session_id self) "" then None
                        else Some (PyStr (session.session_id self))).
Proof.
  induction calls as [|[command params] rest IH]; intros self i c.
  - simpl. by rewrite lookup_nil.
  - rewrite send_commands_cons.
    remember (session.send_command id command params self).1 as c0 eqn:Hc0.
    simpl. destruct i as [|i]; simpl.
    + intros [= <-]. subst c0. split.
      * rewrite send_command_id. do 2 f_equal. lia.
      * apply send_command_sessionId.
    + intros Hc. destruct (IH _ _ _ Hc) as [Hid Hsid]. simpl in *. split.
      * rewrite Hid. do 2 f_equal. lia.
      * exact Hsid.
Qed.

Lemma send_commands_counter calls : ∀ self,
  session.message_id (session.send_commands calls self).2
  = session.message_id self + Z.of_nat (length calls).
Proof.
  induction calls as [|[command params] rest IH]; intros self.
  - simpl. lia.
  - rewrite send_commands_cons. simpl. rewrite IH. simpl. lia.
Qed.

(** C10: a session identifier that is not a string makes [Session.__init__]
    raise [TypeError] and no session comes to exist; whenever the
    constructor does return a session, the argument was a string, which is
    the session's identifier, and the session starts with counter 0 and no
    subscriptions. *)
Theorem init_requires_string (v : pyval) :
  (isinstance_str v = false →
     session.init (Callback := Callback) v = inl (TypeError session.msg_not_str))
  ∧ (∀ self, session.init v = inr self →
       v = PyStr (session.session_id self)
       ∧ session.message_id self = 0
       ∧ session.subscriptions self = ∅).
Proof.
  split.
  - destruct v; simpl; intros; done.
  - intros self. destruct v; simpl; intros [= <-]; done.
Qed.

(** C7: [subscribe] on a name that is registered raises the duplicate
    subscription error and leaves the session as it was; on a name that is
    not registered it returns, and the table of the session it leaves holds
    the pair (callback, repeating) under the name and is otherwise the old
    one. [unsubscribe] on a name that is not registered raises the unknown
    subscription error and leaves the session as it was; on a registered
    name it returns, and the table it leaves has no entry for the name and
    is otherwise the old one. Neither touches the identifier or the counter.
    Both errors are Python [ValueError]s, told apart by their message. *)
Theorem subscribe_unsubscribe_spec self name (callback : Callback) (repeating : bool) :
  let subscribed := session.subscribe name callback repeating self in
  let unsubscribed := session.unsubscribe name self in
  (is_Some (session.subscriptions self !! name) →
     subscribed = (inl (ValueError session.msg_duplicate), self)
     ∧ unsubscribed.1 = inr tt
     ∧ session.subscriptions unsubscribed.2 = delete name (session.subscriptions self)
     ∧ session.subscriptions unsubscribed.2 !! name = None
     ∧ (∀ other, other ≠ name →
          session.subscriptions unsubscribed.2 !! other
          = session.subscriptions self !! other)
     ∧ session.session_id unsubscribed.2 = session.session_id self
     ∧ session.message_id unsubscribed.2 = session.message_id self)
  ∧ (session.subscriptions self !! name = None →
     unsubscribed = (inl (ValueError session.msg_unknown), self)
     ∧ subscribed.1 = inr tt
     ∧ session.subscriptions subscribed.2
       = <[name := (callback, repeating)]> (session.subscriptions self)
     ∧ session.subscriptions subscribed.2 !! name = Some (callback, repeating)
     ∧ (∀ other, other ≠ name →
          session.subscriptions subscribed.2 !! other
          = session.subscriptions self !! other)
     ∧ session.session_id subscribed.2 = session.session_id self
     ∧ session.message_id subscribed.2 = session.message_id self).
Proof.
  cbv zeta. unfold session.subscribe, session.unsubscribe. split.
  - intros Hin. rewrite bool_decide_eq_true_2 by done. simpl.
    split_and!; [done..| | |done|done].
    + apply lookup_delete_eq.
    + intros other Hne. by apply lookup_delete_ne.
  - intros Hout. rewrite bool_decide_eq_false_2; [|rewrite Hout; by intros [? ?]].
    simpl. split_and!; [done..| | |done|done].
    + apply lookup_insert_eq.
    + intros other Hne. by apply lookup_insert_ne.
Qed.

(** C8: the commands built by successive [send_command] calls on one
    session carry the ids [message_id], [message_id + 1], ... in the order of
    the calls, so a later command has a strictly larger id than an earlier
    one and no id repeats; the counter ends advanced by the number of calls;
    and each command has a [sessionId] entry exactly when the session's
    identifier is not the empty string, in which case it is that
    identifier. *)
Theorem send_command_ids self (calls : list (string * pyval)) :
  (∀ (i : nat) c, (session.send_commands calls self).1 !! i = Some c →
     c !! "id" = Some (PyInt (session.message_id self + Z.of_nat i)))
  ∧ (∀ (i j : nat) a b,
       (session.send_commands calls self).1 !! i = Some a →
       (session.send_commands calls self).1 !! j = Some b →
       (i < j)%nat →
       ∃ x y, a !! "id" = Some (PyInt x) ∧ b !! "id" = Some (PyInt y) ∧ x < y)
  ∧ session.message_id (session.send_commands calls self).2
    = session.message_id self + Z.of_nat (length calls)
  ∧ length (session.send_commands calls self).1 = length calls
  ∧ (∀ c, c ∈ (session.send_commands calls self).1 →
       (is_Some (c !! "sessionId") ↔ session.session_id self ≠ "")
       ∧ (∀ v, c !! "sessionId" = Some v → v = PyStr (session.session_id self))).
Proof.
  split_and!.
  - intros i c Hc. by destruct (send_commands_lookup _ _ _ _ Hc).
  - intros i j a b Ha Hb Hij.
    destruct (send_commands_lookup _ _ _ _ Ha) as [Hx _].
    destruct (send_commands_lookup _ _ _ _ Hb) as [Hy _].
    eexists _, _. split_and!; [done..|lia].
  - apply send_commands_counter.
  - revert self. induction calls as [|[command params] rest IH]; intros self; [done|].
    rewrite send_commands_cons. simpl. by rewrite IH.
  - intros c [i Hc]%list_elem_of_lookup.
    destruct (send_commands_lookup _ _ _ _ Hc) as [_ Hs]. rewrite Hs.
    destruct (String.eqb_spec (session.session_id self) "") as [He|Hne].
    + split; [|done]. split; [by intros [? ?]|done].
    + split; [|by intros v [= <-]]. split; [done|by eexists].
Qed.

End SessionProperties.

(** A run of [subscribe_unsubscribe_spec] on a session that has ["a"]
    registered and ["b"] free, with booleans for callbacks: the duplicate is
    refused, ["a"] can be removed, the unknown name is refused, ["b"] can be
    added. *)
Lemma subscribe_unsubscribe_spec_witness :
  let self := session.mk "S" 3 {["a" := (true, true)]} in
  (session.subscribe "a" false false self
   = (inl (ValueError session.msg_duplicate), self)
   ∧ session.subscriptions (session.unsubscribe "a" self).2 !! "a" = None)
  ∧ (session.unsubscribe "b" self = (inl (ValueError session.msg_unknown), self)
     ∧ session.subscriptions (session.subscribe "b" false false self).2 !! "b"
       = Some (false, false)).
Proof.
  intros self. split.
  - destruct (proj1 (subscribe_unsubscribe_spec self "a" false false))
      as (Hdup & _ & _ & Hgone & _); [by eexists|].
    exact (conj Hdup Hgone).
  - destruct (proj2 (subscribe_unsubscribe_spec self "b" false false))
      as (Hunknown & _ & _ & Hstored & _); [reflexivity|].
    exact (conj Hunknown Hstored).
Defined.

(** * Properties of browser.py *)

Import browser.

(** ** Shutdown *)

(** Unfolds the monad so that a run can be followed call by call. *)
Ltac step_run :=
  unfold bind, call, emit, warn, ret, raise, get_self, put_self; simpl.

Section ShutdownProperties.

Context {W : Type} `{Env W}.
Implicit Types (s : state W) (c : Z).

Lemma _is_closed_poll s rc w' :
  env_poll (world s) = (rc, w') →
  _is_closed 0 s
  = (inr (truthy (returncode_value rc)), mkState (self s) w' (log s ++ [Poll])).
Proof.
  intros Hp. unfold _is_closed. step_run. rewrite Hp.
  by destruct (truthy (returncode_value rc)).
Qed.

Lemma _is_closed_wait s (t : Z) rc w' :
  t ≠ 0 →
  env_wait t (world s) = (rc, w') →
  _is_closed t s
  = (inr (bool_decide (is_Some rc)), mkState (self s) w' (log s ++ [Wait t])).
Proof.
  intros Ht Hw. unfold _is_closed. simpl.
  destruct (Z.eqb_spec t 0) as [|_]; [done|]. step_run. rewrite Hw.
  by destruct rc.
Qed.

Lemma _is_closed_async_wait s (t : Z) rc w' :
  env_wait t (world s) = (rc, w') →
  _is_closed_async t s
  = (inr (bool_decide (is_Some rc)), mkState (self s) w' (log s ++ [Wait t])).
Proof.
  intros Hw. unfold _is_closed_async. step_run. rewrite Hw. by destruct rc.
Qed.

(** A child seen exited with a code other than 0 ends [_sync_close] at its
    first test: one poll, and nothing else reaches the world. *)
Lemma _sync_close_exited_nonzero s c w' :
  env_poll (world s) = (Some c, w') →
  c ≠ 0 →
  _sync_close s
  = debug_print "Browser was already closed." (mkState (self s) w' (log s ++ [Poll])).
Proof.
  intros Hp Hc. unfold _sync_close. unfold bind at 1.
  rewrite (_is_closed_poll _ _ _ Hp). simpl.
  by destruct (Z.eqb_spec c 0).
Qed.

(** X9: a running child that has exited with a code other than 0 by the poll
    after the [Browser.close] command ends [_sync_close] there: the pipe is
    not closed and no signal is sent. *)
Lemma _sync_close_graceful_nonzero s w1 w2 w3 response c :
  env_poll (world s) = (None, w1) →
  env_send_command "Browser.close" PyNone w1 = (inr response, w2) →
  env_poll w2 = (Some c, w3) →
  c ≠ 0 →
  _sync_close s
  = debug_print "Browser.close method closed browser"
      (mkState (self s) w3
         (log s ++ [Poll] ++ [SendCommand "Browser.close" PyNone] ++ [Poll])).
Proof.
  intros Hp1 Hs Hp2 Hc. unfold _sync_close. unfold bind at 1.
  rewrite (_is_closed_poll _ _ _ Hp1). simpl.
  unfold bind at 1. unfold send_command. step_run. rewrite Hs. simpl.
  erewrite _is_closed_poll by (simpl; exact Hp2). simpl.
  destruct (Z.eqb_spec c 0); [done|]. simpl.
  by rewrite <- !app_assoc.
Qed.

(** Off Windows, the only exception that leaves [_sync_close] is one raised
    by the [Browser.close] command itself: no stage reports a child that
    stays alive. *)
Lemma _sync_close_raises_off_windows s e :
  (∀ w, String.eqb (platform_system w) "Windows" = false) →
  (_sync_close s).1 = inl e →
  ∃ w, (env_send_command "Browser.close" PyNone w).1 = inl e.
Proof.
  intros Hp. unfold _sync_close, _is_closed, send_command, debug_print. step_run.
  repeat (rewrite ?Hp; first [ progress simpl | case_match ]; simplify_eq/=);
    try done.
  intros [= <-].
  match goal with
  | Hs : env_send_command _ _ ?w = _ |- _ => exists w; by rewrite Hs
  end.
Qed.

(** Off Windows, [_async_close] returns normally whatever the child does. *)
Lemma _async_close_returns_off_windows s :
  (∀ w, String.eqb (platform_system w) "Windows" = false) →
  (_async_close s).1 = inr tt.
Proof.
  intros Hp.
  unfold _async_close, _is_closed_async, send_command_unchecked, debug_print.
  step_run.
  repeat (rewrite ?Hp; first [ progress simpl | case_match ]; simplify_eq/=);
    done.
Qed.

End ShutdownProperties.

(** C3: [close] on a browser whose child has already exited with code 0 is
    not a no-op. [_is_closed] takes the return code 0 of [poll] for a child
    that still runs, so the [Browser.close] command is sent and the pipe is
    closed before the one-second wait sees the exit; and when the pipe
    refuses the write, the exception leaves [close]. A child that exited with
    code 1 is left alone ([_sync_close_exited_nonzero] has the general
    statement). *)
Theorem close_after_exit_code_0 :
  close (start (handle true false ∅) (exited_child "Linux" 0))
  = (inr tt,
     mkState (handle true false ∅) (exited_child "Linux" 0)
       [Poll; SendCommand "Browser.close" PyNone; Poll; PipeClose; Wait 1;
        PipeClose; CleanTemp])
  ∧ close (start (handle true false ∅) (exited_child_closed_pipe "Linux" 0))
    = (inl (ValueError "I/O operation on closed file"),
       mkState (handle true false ∅) (exited_child_closed_pipe "Linux" 0)
         [Poll; SendCommand "Browser.close" PyNone])
  ∧ close (start (handle true false ∅) (exited_child "Linux" 1))
    = (inr tt,
       mkState (handle true false ∅) (exited_child "Linux" 1)
         [Poll; PipeClose; CleanTemp]).
Proof. split_and!; reflexivity. Qed.

(** C4: when the child exits with code 0 on the [Browser.close] command,
    [_sync_close] does not stop after stage 1: the poll that follows reads
    the code 0 as still running, and stage 2 closes the pipe before the wait
    confirms the exit. With exit code 1 the same run stops after stage 1
    ([_sync_close_graceful_nonzero] has the general statement). *)
Theorem _sync_close_graceful_exit_code_0 :
  let run0 := _sync_close (start (handle true false ∅) (obedient_child "Linux" 0)) in
  let run1 := _sync_close (start (handle true false ∅) (obedient_child "Linux" 1)) in
  (run0.1 = inr tt
   ∧ fake_returncode (world run0.2) = Some 0
   ∧ log run0.2 = [Poll; SendCommand "Browser.close" PyNone; Poll; PipeClose; Wait 1])
  ∧ (run1.1 = inr tt
     ∧ fake_returncode (world run1.2) = Some 1
     ∧ log run1.2 = [Poll; SendCommand "Browser.close" PyNone; Poll]).
Proof. split_and!; reflexivity. Qed.

(** C5: on a platform other than Windows, a child that survives every stage
    does not make shutdown fail: [_sync_close] and [_async_close] send
    [terminate] and [kill], poll once more and return, and [close] goes on to
    remove the temporary directory and returns as well, the child still
    running. On Windows the same child makes both raise [RuntimeError] after
    [taskkill] and its two-second wait. *)
Theorem close_survivor_returns_off_windows :
  let sync := _sync_close (start (handle true false ∅) (stubborn_child "Linux")) in
  let async := _async_close (start (handle true true ∅) (stubborn_child "Linux")) in
  let whole := close (start (handle true false ∅) (stubborn_child "Linux")) in
  (sync.1 = inr tt
   ∧ fake_returncode (world sync.2) = None
   ∧ log sync.2 = [Poll; SendCommand "Browser.close" PyNone; Poll; PipeClose; Wait 1;
                   Terminate; Poll; Kill; Poll])
  ∧ (async.1 = inr tt
     ∧ fake_returncode (world async.2) = None
     ∧ log async.2 = [Wait 0; SendCommand "Browser.close" PyNone; Wait 0; PipeClose;
                      Wait 1; Terminate; Wait 0; Kill; Wait 0])
  ∧ (whole.1 = inr tt ∧ fake_returncode (world whole.2) = None)
  ∧ (_sync_close (start (handle true false ∅) (stubborn_child "Windows"))).1
    = inl could_not_kill
  ∧ (_async_close (start (handle true true ∅) (stubborn_child "Windows"))).1
    = inl could_not_kill.
Proof. split_and!; reflexivity. Qed.

(** ** Construction *)

(** X17: [BrowserProcess.__init__] resolves the path in the order: the [path]
    argument when it is truthy, else a non-empty [BROWSER_PATH] of the
    environment, else a truthy [default_path]; with none of them it raises
    [RuntimeError]. *)
Lemma BrowserProcess_init_path (sur : surroundings) (path headless debug : pyval) :
  let override := environ_get "BROWSER_PATH" (environ sur) in
  let r := BrowserProcess_init sur path headless debug in
  (truthy path = true → browser_path r = Some path)
  ∧ (truthy path = false → truthy override = true → browser_path r = Some override)
  ∧ (truthy path = false → truthy override = false → truthy (default_path sur) = true →
       browser_path r = Some (default_path sur))
  ∧ (truthy path = false → truthy override = false → truthy (default_path sur) = false →
       r = inl (RuntimeError no_browser None)).
Proof.
  unfold BrowserProcess_init, browser_path. simpl.
  split_and!; intros;
    repeat match goal with
           | Ht : truthy _ = _ |- _ => rewrite Ht; simpl
           end;
    try done;
    destruct (truthy headless); simpl;
    repeat (rewrite lookup_insert_ne by done); by rewrite lookup_insert_eq.
Qed.

(** C2: [Browser.__init__] never resolves a path. Its first [super] call,
    [super(Target, self).__init__("0", self)], is looked up after [Target] in
    the resolution order and finds [object.__init__], which raises
    [TypeError] on the two arguments: every construction ends there,
    whatever path, environment and default there are. The second call would
    be looked up after [BrowserProcess] and find [Target.__init__], not the
    constructor that resolves the path; and the arguments written at that
    call name [path=None], so that even [BrowserProcess.__init__] would be
    run with the override of the environment where the caller gave a path.
    [BrowserProcess.__init__] called with the path uses it. *)
Theorem Browser_init_never_resolves :
  (∀ sur path headless debug kwargs,
     Browser_init sur path headless debug kwargs
     = Some (inl (TypeError object_init_msg)))
  ∧ super class_Target = Some class_object
  ∧ super class_BrowserProcess = Some class_Target
  ∧ (∃ bp, init_of with_override class_BrowserProcess (process_arguments [])
           = Some (inr (Some bp))
           ∧ _env bp !! "BROWSER_PATH" = Some (PyStr "/usr/bin/chromium"))
  ∧ browser_path
      (BrowserProcess_init with_override (PyStr "/opt/chrome") (PyBool true) (PyBool false))
    = Some (PyStr "/opt/chrome").
Proof.
  split_and!; [done..| |done]. eexists. split; reflexivity.
Qed.

(** ** The tab registry *)

Section RegistryProperties.

Context {W : Type} `{Env W}.
Implicit Types (s : state W) (r : tab_ref).

(** X16: with a loop, [create_tab] warns exactly when the browser is headless
    and a width or height was given, then issues [Target.createTarget];
    the command's params hold the url, and hold a truthy width or height
    exactly when the browser is not headless. *)
Lemma create_tab_command s (url width height : pyval) :
  loop (self s) = true →
  ∃ params rest,
    log (create_tab url width height s).2
    = (log s
       ++ (if headless (self s) && (truthy width || truthy height)
           then [Warn headless_only] else [])
       ++ SendCommand "Target.createTarget" (PyDict params) :: rest)%list
    ∧ params !! "url" = Some url
    ∧ params !! "width"
      = (if headless (self s) then None
         else if truthy width then Some width else None)
    ∧ params !! "height"
      = (if headless (self s) then None
         else if truthy height then Some height else None).
Proof.
  intros Hloop.
  unfold create_tab, send_command, item_str, item, contains, add_tab,
    Tab_create_session.
  step_run. rewrite Hloop. simpl.
  destruct (headless (self s)), (truthy width) eqn:Hw, (truthy height) eqn:Hh;
    simpl; rewrite ?Hw, ?Hh; simpl;
    repeat (case_match; simplify_eq/=);
    (eexists _, _; split_and!;
     [ rewrite <- ?app_assoc; simpl; reflexivity | .. ]);
    repeat (rewrite lookup_insert_ne by done);
    first [ by rewrite lookup_insert_eq | by rewrite lookup_singleton_eq
          | by rewrite lookup_singleton_ne ].
Qed.


(** [v[key]] through [py_get]. *)
Lemma py_item_get (key : string) (v : pyval) :
  py_item key v = match py_get key v with
                  | Some x => inr x
                  | None => inl (missing key v)
                  end.
Proof.
  destruct v as [| | | | |d]; simpl; first [ done | by destruct (d !! key) ].
Qed.

(** [key in v] on a value that has an entry, or on a dictionary. *)
Lemma py_contains_get (key : string) (v x : pyval) (other : string) :
  py_get other v = Some x →
  py_contains key v = inr (py_in key v).
Proof. by destruct v. Qed.


(** One turn of the loop of [populate_targets]. *)
Lemma populate_loop_cons info rest s :
  populate_loop (info :: rest) s
  = match py_get "type" info with
    | None => (inl (missing "type" info), s)
    | Some type =>
        if is_page type then
          match py_get "targetId" info with
          | None => (inl (missing "targetId" info), s)
          | Some (PyStr k) =>
              if bool_decide (is_Some (tabs (self s) !! k)) then populate_loop rest s
              else
                match env_create_session k (world s) with
                | (inl e, w') =>
                    (inl e, mkState (self s) w' (log s ++ [CreateSession k]))
                | (inr sid, w') =>
                    populate_loop rest
                      (mkState
                         (set_tabs (<[k := mkTab k [sid]]> (tabs (self s))) (self s))
                         w'
                         ((log s ++ [CreateSession k])
                          ++ (if debug (self s)
                              then [Print ("The target " ++ k ++ " was added")]
                              else [])))
                end
          | Some _ => (inl (TypeError "target identifier is not a string"), s)
          end
        else populate_loop rest s
    end.
Proof.
  cbn [populate_loop].
  unfold item_str, item, Tab_create_session, add_tab, debug_print.
  unfold bind, call, emit, ret, raise, get_self, put_self.
  rewrite !py_item_get.
  destruct (py_get "type" info) as [type|]; [|done].
  destruct (is_page type); [|done].
  destruct (py_get "targetId" info) as [[| | |k| |]|]; try done.
  destruct (bool_decide (is_Some (tabs (self s) !! k))); [done|].
  cbn [self world log target_id sessions].
  destruct (env_create_session k (world s)) as [[e|sid] w']; [done|].
  cbn [self world log target_id sessions set_tabs debug app].
  destruct (debug (self s)); cbn [self world log]; [done|].
  by rewrite app_nil_r.
Qed.

(** When every entry is settled, the loop changes nothing and makes no
    call. *)
Lemma populate_loop_settled (targetInfos : list pyval) : ∀ s,
  Forall (settled (tabs (self s))) targetInfos →
  populate_loop targetInfos s = (inr tt, s).
Proof.
  induction targetInfos as [|info rest IH]; intros s Hall; [done|].
  apply Forall_cons in Hall as [(type & Htype & Hpage) Hrest].
  rewrite populate_loop_cons, Htype.
  destruct (is_page type); [|by apply IH].
  destruct Hpage as (k & -> & Hk); [done|].
  rewrite bool_decide_eq_true_2 by done. by apply IH.
Qed.

Lemma settled_mono (m1 m2 : gmap string Tab) info :
  m1 ⊆ m2 → settled m1 info → settled m2 info.
Proof.
  intros Hsub (type & Htype & Hpage). exists type. split; [done|].
  intros Hp. destruct (Hpage Hp) as (k & Hk & [tab Htab]).
  exists k. split; [done|]. exists tab. by eapply lookup_weaken.
Qed.

(** What a run of the loop does to the registry: entries are only added,
    each added key is the identifier of a page-kind entry that was not
    registered, and after a run that completes every entry is settled. *)
Lemma populate_loop_run (targetInfos : list pyval) : ∀ s res s1,
  populate_loop targetInfos s = (res, s1) →
  tabs (self s) ⊆ tabs (self s1)
  ∧ (∀ k tab, tabs (self s1) !! k = Some tab →
       tabs (self s) !! k = Some tab
       ∨ (tabs (self s) !! k = None
          ∧ ∃ info, info ∈ targetInfos ∧ page_target info k))
  ∧ (res = inr tt → Forall (settled (tabs (self s1))) targetInfos).
Proof.
  induction targetInfos as [|info rest IH]; intros s res s1.
  { intros [= <- <-]. split_and!; [done|by left|by constructor]. }
  rewrite populate_loop_cons.
  assert (∀ s' e, tabs (self s') = tabs (self s) →
            (inl e, s') = (res, s1) →
            tabs (self s) ⊆ tabs (self s1)
            ∧ (∀ k tab, tabs (self s1) !! k = Some tab →
                 tabs (self s) !! k = Some tab
                 ∨ (tabs (self s) !! k = None
                    ∧ ∃ info0, info0 ∈ info :: rest ∧ page_target info0 k))
            ∧ (res = inr tt → Forall (settled (tabs (self s1))) (info :: rest)))
    as Hfail.
  { intros s' e Htabs [= <- <-]. rewrite Htabs. split_and!; [done|by left|done]. }
  assert (populate_loop rest s = (res, s1) →
          settled (tabs (self s)) info →
          tabs (self s) ⊆ tabs (self s1)
          ∧ (∀ k tab, tabs (self s1) !! k = Some tab →
               tabs (self s) !! k = Some tab
               ∨ (tabs (self s) !! k = None
                  ∧ ∃ info0, info0 ∈ info :: rest ∧ page_target info0 k))
          ∧ (res = inr tt → Forall (settled (tabs (self s1))) (info :: rest)))
    as Hskip.
  { intros Hrun Hset. destruct (IH _ _ _ Hrun) as (Hsub & Honly & Hall).
    split_and!; [done| |].
    - intros k tab Hk. destruct (Honly _ _ Hk) as [?|(? & info0 & ? & ?)]; [by left|].
      right. split; [done|]. exists info0. split; [by right|done].
    - intros Hres. constructor; [by eapply settled_mono|by apply Hall]. }
  destruct (py_get "type" info) as [type|] eqn:Htype; [|by eapply Hfail].
  destruct (is_page type) eqn:Hpage; cycle 1.
  { intros Hrun. apply Hskip; [done|]. exists type. split; [done|]. by rewrite Hpage. }
  destruct (py_get "targetId" info) as [[| | |k| |]|] eqn:Hid;
    try (by eapply Hfail).
  case_bool_decide as Hin.
  { intros Hrun. apply Hskip; [done|]. exists type. split; [done|].
    intros _. by exists k. }
  assert (tabs (self s) !! k = None) as Hnone.
  { destruct (tabs (self s) !! k) eqn:E; [|done]. destruct Hin. by eexists. }
  destruct (env_create_session k (world s)) as [[e|sid] w']; [by eapply Hfail|].
  intros Hrun. destruct (IH _ _ _ Hrun) as (Hsub & Honly & Hall).
  cbn [self set_tabs tabs] in Hsub, Honly.
  assert (tabs (self s) ⊆ tabs (self s1)) as Hsub'.
  { etrans; [|exact Hsub]. by apply insert_subseteq. }
  split_and!; [done| |].
  - intros k' tab Hk'. destruct (Honly _ _ Hk') as [Hold|(Hold & info0 & ? & ?)].
    + destruct (decide (k = k')) as [<-|Hne].
      * right. split; [done|]. exists info. split; [by left|].
        split; [by exists type|done].
      * left. by rewrite lookup_insert_ne in Hold.
    + right. destruct (decide (k = k')) as [<-|Hne].
      * by rewrite lookup_insert_eq in Hold.
      * rewrite lookup_insert_ne in Hold by done. split; [done|].
        exists info0. split; [by right|done].
  - intros Hres. constructor; [|by apply Hall].
    exists type. split; [done|]. intros _. exists k. split; [done|].
    exists (mkTab k [sid]). eapply lookup_weaken; [|exact Hsub].
    by rewrite lookup_insert_eq.
Qed.

(** [populate_targets] up to its loop, when the enumeration is answered. *)
Lemma populate_targets_enumerated s (response : pyval) (targetInfos : list pyval) w1 :
  env_send_command "Target.getTargets" PyNone (world s) = (inr response, w1) →
  enumerates response targetInfos →
  ∃ s', populate_targets s = populate_loop targetInfos s'
        ∧ self s' = self s.
Proof.
  intros Hsend (Hok & result & Hresult & Hinfos).
  unfold populate_targets, send_command, item, contains, warn, emit.
  unfold bind, call, ret, raise, get_self.
  cbn [self world log].
  destruct (negb (loop (self s))); cbn [self world log];
    rewrite Hsend, (py_contains_get _ _ _ _ Hresult), Hok; cbn beta iota;
    rewrite py_item_get, Hresult; cbn beta iota;
    rewrite py_item_get, Hinfos; by eexists.
Qed.

(** C9: a run of [populate_targets] that completes adds to the registry
    only tabs keyed by the identifier of an enumerated page-kind target that
    was not registered, keeps every entry that was there, and leaves every
    enumerated page-kind target registered; a second run from the resulting
    registry, answered with the same enumeration, completes without
    touching the browser object, its registry left as the first run made
    it. *)
Theorem populate_targets_idempotent s s1 (response : pyval)
    (targetInfos : list pyval) (w1 : W) :
  env_send_command "Target.getTargets" PyNone (world s) = (inr response, w1) →
  enumerates response targetInfos →
  populate_targets s = (inr tt, s1) →
  (∀ k tab, tabs (self s1) !! k = Some tab →
     tabs (self s) !! k = Some tab
     ∨ (tabs (self s) !! k = None
        ∧ ∃ info, info ∈ targetInfos ∧ page_target info k))
  ∧ tabs (self s) ⊆ tabs (self s1)
  ∧ (∀ info k, info ∈ targetInfos → page_target info k →
       is_Some (tabs (self s1) !! k))
  ∧ (∀ s2 w2,
       tabs (self s2) = tabs (self s1) →
       env_send_command "Target.getTargets" PyNone (world s2) = (inr response, w2) →
       ∃ s3, populate_targets s2 = (inr tt, s3)
             ∧ self s3 = self s2
             ∧ tabs (self s3) = tabs (self s1)).
Proof.
  intros Hsend Henum Hrun.
  destruct (populate_targets_enumerated _ _ _ _ Hsend Henum) as (s' & Heq & Hself).
  rewrite Heq in Hrun.
  destruct (populate_loop_run _ _ _ _ Hrun) as (Hsub & Honly & Hall).
  rewrite Hself in Hsub, Honly. specialize (Hall eq_refl).
  split_and!; [done..| |].
  - intros info k Hin ((type & Htype & Hpage) & Hid).
    rewrite Forall_forall in Hall.
    destruct (Hall _ Hin) as (type' & Htype' & Hk).
    rewrite Htype in Htype'. injection Htype' as <-.
    destruct (Hk Hpage) as (k' & Hid' & ?).
    rewrite Hid in Hid'. by injection Hid' as <-.
  - intros s2 w2 Htabs Hsend2.
    destruct (populate_targets_enumerated _ _ _ _ Hsend2 Henum) as (s2' & Heq2 & Hself2).
    exists s2'. rewrite Heq2, Hself2. split_and!; [|done..].
    apply populate_loop_settled. by rewrite Hself2, Htabs.
Qed.

End RegistryProperties.

(** C1: [create_tab] treats width and height the other way round from its
    own warning text. On a headless browser a given width and height are
    dropped with the warning that they only work in headless mode; on a
    browser that is not headless they are sent in the params of
    [Target.createTarget] and nothing is warned. *)
Theorem create_tab_size_by_mode :
  let remote_end := remote_browser (PyDict ∅) in
  let headless_run :=
    create_tab (PyStr "") (PyInt 800) (PyInt 600) (start (handle true true ∅) remote_end) in
  let windowed_run :=
    create_tab (PyStr "") (PyInt 800) (PyInt 600) (start (handle false true ∅) remote_end) in
  log headless_run.2
  = [Warn headless_only;
     SendCommand "Target.createTarget" (PyDict {["url" := PyStr ""]});
     CreateSession "T9"]
  ∧ log windowed_run.2
    = [SendCommand "Target.createTarget"
         (PyDict (<["height" := PyInt 600]> (<["width" := PyInt 800]> {["url" := PyStr ""]})));
       CreateSession "T9"].
Proof. split; reflexivity. Qed.



(** A run of [populate_targets_idempotent]: [T1] is registered, the remote
    end enumerates the pages [T1] and [T2] and the browser target [B0]; the
    first run adds [T2] alone, and the second run changes nothing. *)
Lemma populate_targets_idempotent_witness :
  let before := start (handle true true {["T1" := tab_T1]}) (remote_browser (PyDict ∅)) in
  let once := (populate_targets before).2 in
  tabs (self once) = <["T2" := mkTab "T2" ["session-of-T2"]]> {["T1" := tab_T1]}
  ∧ ∃ twice, populate_targets once = (inr tt, twice)
             ∧ self twice = self once
             ∧ tabs (self twice) = tabs (self once).
Proof.
  intros before once. split; [reflexivity|].
  assert (enumerates (result_of (PyDict {["targetInfos" := PyList three_targets]}))
            three_targets) as Henum.
  { split; [reflexivity|]. eexists. split; reflexivity. }
  exact (proj2 (proj2 (proj2
           (populate_targets_idempotent before once _ three_targets
              (remote_browser (PyDict ∅)) eq_refl Henum eq_refl)))
           once (remote_browser (PyDict ∅)) eq_refl eq_refl).
Defined.

(** * Further properties of session.py *)

Section SessionComposition.

Context {Callback : Type}.
Implicit Types (self : session.Session Callback) (name : string).

Lemma set_subscriptions_same self :
  session.set_subscriptions (session.subscriptions self) self = self.
Proof. by destruct self. Qed.

(** X1: subscribing to a name that is not registered and then unsubscribing
    from it succeeds both times and gives back the session as it was; in
    between, the name holds the pair that was given. *)
Theorem subscribe_unsubscribe_roundtrip self name (callback : Callback) (repeating : bool) :
  session.subscriptions self !! name = None →
  ∃ self', session.subscribe name callback repeating self = (inr tt, self')
    ∧ session.subscriptions self' !! name = Some (callback, repeating)
    ∧ session.unsubscribe name self' = (inr tt, self).
Proof.
  intros Hfree. eexists. split_and!.
  - unfold session.subscribe. rewrite bool_decide_eq_false_2; [done|].
    rewrite Hfree. by intros [? ?].
  - simpl. by rewrite lookup_insert_eq.
  - unfold session.unsubscribe. simpl. rewrite lookup_insert_eq.
    rewrite bool_decide_eq_true_2 by done. simpl.
    unfold session.set_subscriptions. simpl.
    rewrite delete_insert_id by done. by destruct self.
Qed.

(** X2: neither operation succeeds twice in a row on one name. After a
    [subscribe] that succeeded, a second [subscribe] to the name raises,
    whatever it is given, and the name keeps the first pair; after an
    [unsubscribe] that succeeded, a second one raises. *)
Theorem no_repeat self self' name (callback : Callback) (repeating : bool) :
  (session.subscribe name callback repeating self = (inr tt, self') →
     session.subscriptions self' !! name = Some (callback, repeating)
     ∧ ∀ callback' repeating',
         session.subscribe name callback' repeating' self'
         = (inl (ValueError session.msg_duplicate), self'))
  ∧ (session.unsubscribe name self = (inr tt, self') →
       session.subscriptions self' !! name = None
       ∧ session.unsubscribe name self'
         = (inl (ValueError session.msg_unknown), self')).
Proof.
  split.
  - unfold session.subscribe. case_bool_decide; [done|]. intros [= <-].
    simpl. rewrite lookup_insert_eq. split; [done|]. intros callback' repeating'.
    by rewrite bool_decide_eq_true_2.
  - unfold session.unsubscribe. case_bool_decide; simpl; [|done]. intros [= <-].
    simpl. rewrite lookup_delete_eq. split; [done|].
    rewrite bool_decide_eq_false_2; [done|]. by intros [? ?].
Qed.

(** X3: whatever their outcome, [subscribe] and [unsubscribe] on one name
    leave the entry of every other name, the session identifier and the
    message counter as they were. *)
Theorem subscriptions_frame self name name' (callback : Callback) (repeating : bool) :
  name ≠ name' →
  let subscribed := (session.subscribe name callback repeating self).2 in
  let unsubscribed := (session.unsubscribe name self).2 in
  session.subscriptions subscribed !! name' = session.subscriptions self !! name'
  ∧ session.subscriptions unsubscribed !! name' = session.subscriptions self !! name'
  ∧ session.session_id subscribed = session.session_id self
  ∧ session.message_id subscribed = session.message_id self
  ∧ session.session_id unsubscribed = session.session_id self
  ∧ session.message_id unsubscribed = session.message_id self.
Proof.
  intros Hne. unfold session.subscribe, session.unsubscribe.
  repeat case_bool_decide; simpl; split_and!; try done;
    first [ by rewrite lookup_insert_ne | by rewrite lookup_delete_ne ].
Qed.

(** X4: the command built by [send_command] names the method, carries the
    params exactly when they are truthy ([None] and an empty dictionary are
    left out), and has no key besides id, method, sessionId and params; the
    call leaves the subscriptions and the session identifier alone. *)
Theorem send_command_shape self (command : string) (params : pyval) :
  let sent := session.send_command id command params self in
  sent.1 !! "method" = Some (PyStr command)
  ∧ sent.1 !! "params" = (if truthy params then Some params else None)
  ∧ (∀ key, is_Some (sent.1 !! key) → key ∈ ["id"; "method"; "sessionId"; "params"])
  ∧ session.subscriptions sent.2 = session.subscriptions self
  ∧ session.session_id sent.2 = session.session_id self.
Proof.
  unfold session.send_command. simpl.
  destruct (negb (String.eqb _ _)), (truthy params); simpl; split_and!; try done;
    try (repeat (rewrite lookup_insert_ne by done);
         first [ by rewrite lookup_insert_eq | by rewrite lookup_empty ]).
  all: intros key [v Hv];
    repeat (apply lookup_insert_Some in Hv as [[<- _]|[_ Hv]]; [set_solver|]);
    by rewrite lookup_empty in Hv.
Qed.

End SessionComposition.

(** A run of [subscribe_unsubscribe_roundtrip] on the session of the browser
    target, with booleans for callbacks. *)
Lemma subscribe_unsubscribe_roundtrip_witness :
  ∃ self', session.subscribe "Page.loadEventFired" true false (session.mk "" 0 ∅)
           = (inr tt, self')
    ∧ session.subscriptions self' !! "Page.loadEventFired" = Some (true, false)
    ∧ session.unsubscribe "Page.loadEventFired" self' = (inr tt, session.mk "" 0 ∅).
Proof.
  apply (subscribe_unsubscribe_roundtrip (session.mk "" 0 ∅)). reflexivity.
Defined.

(** A run of [subscriptions_frame]. *)
Lemma subscriptions_frame_witness :
  let self := session.mk "S" 3 {["a" := (true, true)]} in
  let subscribed := (session.subscribe "b" false false self).2 in
  let unsubscribed := (session.unsubscribe "b" self).2 in
  session.subscriptions subscribed !! "a" = session.subscriptions self !! "a"
  ∧ session.subscriptions unsubscribed !! "a" = session.subscriptions self !! "a"
  ∧ session.session_id subscribed = session.session_id self
  ∧ session.message_id subscribed = session.message_id self
  ∧ session.session_id unsubscribed = session.session_id self
  ∧ session.message_id unsubscribed = session.message_id self.
Proof.
  apply (subscriptions_frame (session.mk "S" 3 {["a" := (true, true)]}) "b" "a" false false).
  discriminate.
Defined.

(** * Further properties of shutdown *)

(** Closes a leaf of a run that has been split into its cases: the new part
    of the log is read off, and the side that holds is chosen. *)
Ltac read_log :=
  eexists; split; [ rewrite <- ?app_assoc; simpl; reflexivity | ].

Ltac name_world :=
  match goal with
  | Hs : env_send_command _ _ ?w = _ |- ∃ _, (env_send_command _ _ _).1 = _ =>
      exists w; by rewrite Hs
  | Hp : String.eqb (platform_system ?w) "Windows" = true |- ∃ _, platform_system _ = _ =>
      exists w; by apply String.eqb_eq
  end.

Section ShutdownTraces.

Context {W : Type} `{Env W}.
Implicit Types (s : state W) (e : exn).

(** Every run of [_sync_close]: what it adds to the log and how it ends. *)
Lemma _sync_close_trace s :
  ∃ l, log (_sync_close s).2 = (log s ++ l)%list
    ∧ self (_sync_close s).2 = self s
    ∧ match (_sync_close s).1 with
      | inr _ =>
          world_calls l `prefix_of` sync_stages_posix
          ∨ world_calls l `prefix_of` sync_stages_windows
      | inl e =>
          (world_calls l = [Poll; close_command]
           ∧ ∃ w, (env_send_command "Browser.close" PyNone w).1 = inl e)
          ∨ (world_calls l = sync_stages_windows
             ∧ e = could_not_kill
             ∧ ∃ w, platform_system w = "Windows")
      end.
Proof.
  unfold _sync_close, _is_closed, send_command, debug_print. step_run.
  repeat (first [ progress simpl | case_match ]; simplify_eq/=);
    read_log; (split; [done|]);
    first [ left; by eexists
          | right; by eexists
          | left; split; [done|]; name_world
          | right; split_and!; [done..|]; name_world ].
Qed.

(** Every run of [_async_close]. *)
Lemma _async_close_trace s :
  ∃ l, log (_async_close s).2 = (log s ++ l)%list
    ∧ self (_async_close s).2 = self s
    ∧ match (_async_close s).1 with
      | inr _ =>
          world_calls l `prefix_of` async_stages_posix
          ∨ world_calls l `prefix_of` async_stages_windows
      | inl e =>
          world_calls l = async_stages_windows
          ∧ e = could_not_kill
          ∧ ∃ w, platform_system w = "Windows"
      end.
Proof.
  unfold _async_close, _is_closed_async, send_command_unchecked, debug_print. step_run.
  repeat (first [ progress simpl | case_match ]; simplify_eq/=);
    read_log; (split; [done|]);
    first [ left; by eexists
          | right; by eexists
          | split_and!; [done..|]; name_world ].
Qed.

End ShutdownTraces.

Section CleanTempTraces.

Context {W : Type} `{Env W}.
Implicit Types (s : state W) (e : exn).

(** Every run of [_clean_temp]: it returns; it calls the world only to
    clean up and, on Windows, to remove the tree, both only while the
    attribute [temp_dir] is there; it leaves the browser object alone, or
    deletes the attribute after the removal of the tree. *)
Lemma _clean_temp_trace s :
  (_clean_temp s).1 = inr tt
  ∧ ∃ l, log (_clean_temp s).2 = (log s ++ l)%list
      ∧ Forall (λ ev, ev = CleanTemp ∨ ev = Rmtree ∨ ∃ msg, ev = Warn msg) l
      ∧ (self (_clean_temp s).2 = self s
         ∨ (self (_clean_temp s).2 = del_temp_dir (self s) ∧ Rmtree ∈ l))
      ∧ (is_Some (temp_dir (self s)) → ∃ l', l = CleanTemp :: l' ∧ CleanTemp ∉ l').
Proof.
  unfold _clean_temp, warn, emit. step_run.
  repeat (first [ progress simpl | case_match ]; simplify_eq/=);
    (split; [done|]); read_log;
    (split_and!;
     [ repeat (apply List.Forall_cons;
               [first [by left | right; by left | right; right; by eexists]|]);
       apply List.Forall_nil
     | first [ by left
             | right; split; [done|]; apply list_elem_of_In; simpl; tauto ]
     | first [ by intros [? ?]
             | intros _; eexists; split; [reflexivity|];
               intros Hin%list_elem_of_In; simpl in Hin; by intuition ] ]).
Qed.

End CleanTempTraces.

Section ShutdownOutcomes.

Context {W : Type} `{Env W}.
Implicit Types (s : state W) (e : exn).


Lemma debug_print_run (msg : string) s :
  debug_print msg s
  = (inr tt, mkState (self s) (world s)
               (log s ++ (if debug (self s) then [Print msg] else []))).
Proof.
  unfold debug_print. step_run. destruct (debug (self s)); simpl; [done|].
  rewrite app_nil_r. by destruct s.
Qed.

(** The last statement of [close]. *)
Lemma closing_line_run s :
  closing_line s
  = if debug (self s) then
      match temp_dir (self s) with
      | Some _ =>
          (inr tt, mkState (self s) (world s) (log s ++ [Print "Tempfile still exists?"]))
      | None => (inl (AttributeError no_temp_dir), s)
      end
    else (inr tt, s).
Proof.
  unfold closing_line. step_run. destruct (debug (self s)); [|done].
  by destruct (temp_dir (self s)).
Qed.

(** What [close] does after the stages, from the state they end in. *)
Lemma close_unfold s :
  close s
  = let stages := if loop (self s) then _async_close s else _sync_close s in
    match stages.1 with
    | inl e => (inl e, stages.2)
    | inr _ =>
        let cleaned :=
          _clean_temp (mkState (self stages.2) (env_pipe_close (world stages.2))
                         (log stages.2 ++ [PipeClose])) in
        if loop (self s) then cleaned
        else match cleaned.1 with
             | inl e => cleaned
             | inr _ => closing_line cleaned.2
             end
    end.
Proof.
  unfold close. step_run.
  destruct (loop (self s)); simpl.
  - destruct (_async_close s) as [[e|[]] s']; simpl; [done|].
    by destruct (_clean_temp _) as [[e|[]] s''].
  - destruct (_sync_close s) as [[e|[]] s']; simpl; [done|].
    by destruct (_clean_temp _) as [[e|[]] s''].
Qed.

(** X5: the stages of shutdown run in the order of the source and none is
    skipped: the calls that [_sync_close] and [_async_close] add to the log
    are an initial part of the stage list of one of the two platforms, so a
    signal is never sent before the pipe was closed and the wait after it ran
    out, and [taskkill] is never mixed with [terminate] and [kill]. Neither
    touches the browser object. *)
Theorem shutdown_stage_order s :
  (∃ l, log (_sync_close s).2 = (log s ++ l)%list
     ∧ (world_calls l `prefix_of` sync_stages_posix
        ∨ world_calls l `prefix_of` sync_stages_windows))
  ∧ (∃ l, log (_async_close s).2 = (log s ++ l)%list
       ∧ (world_calls l `prefix_of` async_stages_posix
          ∨ world_calls l `prefix_of` async_stages_windows))
  ∧ self (_sync_close s).2 = self s
  ∧ self (_async_close s).2 = self s.
Proof.
  destruct (_sync_close_trace s) as (l & Hl & Hself & Hend).
  destruct (_async_close_trace s) as (l' & Hl' & Hself' & Hend').
  split_and!; [exists l|exists l'|done..]; (split; [done|]).
  - destruct (_sync_close s).1; [|done].
    destruct Hend as [[-> _]|(-> & _)]; [left|right]; by eexists.
  - destruct (_async_close s).1; [|done].
    destruct Hend' as (-> & _). right. by eexists.
Qed.


(** X7: when [close] returns on a browser that has its temporary directory,
    the stages are followed by exactly one [pipe.close()] and one
    [temp_dir.cleanup()], in that order, and after them come only the
    removal of the tree on Windows, warnings and debug output. The browser
    object is as before, or has lost the attribute [temp_dir] after the
    removal of the tree. *)
Theorem close_cleans_up s :
  is_Some (temp_dir (self s)) →
  (close s).1 = inr tt →
  ∃ l1 l2,
    log (if loop (self s) then _async_close s else _sync_close s).2 = (log s ++ l1)%list
    ∧ log (close s).2 = (log s ++ l1 ++ PipeClose :: CleanTemp :: l2)%list
    ∧ Forall (λ ev, ev = Rmtree ∨ (∃ msg, ev = Warn msg) ∨ (∃ msg, ev = Print msg)) l2
    ∧ (self (close s).2 = self s
       ∨ (self (close s).2 = del_temp_dir (self s) ∧ Rmtree ∈ l2)).
Proof.
  intros Htemp. rewrite close_unfold. cbv zeta.
  assert (∃ l1, log (if loop (self s) then _async_close s else _sync_close s).2
                = (log s ++ l1)%list
              ∧ self (if loop (self s) then _async_close s else _sync_close s).2 = self s)
    as (l1 & Hl1 & Hself1).
  { destruct (loop (self s)).
    - destruct (_async_close_trace s) as (l & ? & ? & _). by exists l.
    - destruct (_sync_close_trace s) as (l & ? & ? & _). by exists l. }
  destruct (if loop (self s) then _async_close s else _sync_close s)
    as [[e'|[]] s'] eqn:Hstages; simpl in *; [done|].
  destruct (_clean_temp_trace
              (mkState (self s') (env_pipe_close (world s')) (log s' ++ [PipeClose])))
    as (Hret & l2 & Hl2 & Hall & Hobject & Hfirst).
  simpl in *. rewrite Hself1 in Hfirst.
  destruct (Hfirst Htemp) as (l2' & -> & Hnot).
  assert (Forall (λ ev, ev = Rmtree ∨ (∃ msg, ev = Warn msg) ∨ (∃ msg, ev = Print msg)) l2')
    as Hall'.
  { apply Forall_cons in Hall as [_ Hall]. apply Forall_forall. intros ev Hev.
    rewrite Forall_forall in Hall. destruct (Hall ev Hev) as [->|[?|?]];
      [done|by left|right; by left]. }
  assert (self (_clean_temp
                  (mkState (self s') (env_pipe_close (world s')) (log s' ++ [PipeClose]))).2
          = self s
          ∨ (self (_clean_temp
                     (mkState (self s') (env_pipe_close (world s'))
                        (log s' ++ [PipeClose]))).2
             = del_temp_dir (self s) ∧ Rmtree ∈ l2')) as Hobject'.
  { destruct Hobject as [Ho|[Ho Hin]]; [left; by rewrite Ho|right].
    split; [by rewrite Ho, Hself1|].
    apply elem_of_cons in Hin as [?|?]; done. }
  destruct (_clean_temp _) as [[e'|[]] s'']; simpl in *; [done|].
  destruct (loop (self s)).
  - intros _. exists l1, l2'. simpl. rewrite Hl2, Hl1, <- !app_assoc. by simpl.
  - rewrite closing_line_run.
    destruct (debug (self s'')); [|intros _; exists l1, l2'; simpl;
      rewrite Hl2, Hl1, <- !app_assoc; by simpl].
    destruct (temp_dir (self s'')); [|done]. simpl. intros _.
    exists l1, (l2' ++ [Print "Tempfile still exists?"])%list.
    rewrite Hl2, Hl1, <- !app_assoc. simpl. split_and!; [done..| |].
    + apply Forall_app. split; [done|].
      constructor; [|by constructor]. right. right. by eexists.
    + destruct Hobject' as [?|[? ?]]; [by left|right]. split; [done|].
      apply elem_of_app. by left.
Qed.

(** X8: [close] without a loop on a child that has exited with a code other
    than 0 sends nothing: no command and none of [taskkill], [terminate],
    [kill]. It returns, unless debug output is on and the attribute
    [temp_dir] is gone when the last line reads it, where it raises
    [AttributeError]; with debug output off it always returns. *)
Theorem close_after_nonzero_exit s (c : Z) (w' : W) :
  loop (self s) = false →
  env_poll (world s) = (Some c, w') →
  c ≠ 0 →
  (∃ l, log (close s).2 = (log s ++ l)%list
     ∧ Forall (λ ev, is_signal ev = false) l)
  ∧ ((close s).1 = inr tt
     ∨ ((close s).1 = inl (AttributeError no_temp_dir)
        ∧ debug (self s) = true
        ∧ temp_dir (self (close s).2) = None))
  ∧ (debug (self s) = false → (close s).1 = inr tt).
Proof.
  intros Hloop Hpoll Hc. rewrite close_unfold, Hloop. cbv zeta.
  rewrite (_sync_close_exited_nonzero _ _ _ Hpoll Hc), debug_print_run. simpl.
  match goal with
  | |- context [_clean_temp ?s0] =>
      destruct (_clean_temp_trace s0) as (Hret & l2 & Hl2 & Hall & Hobject & _);
      destruct (_clean_temp s0) as [[e'|[]] s''] eqn:Hclean
  end; simpl in *; [done|].
  assert (debug (self s'') = debug (self s)) as Hdebug.
  { by destruct Hobject as [->|[-> _]]. }
  assert (Forall (λ ev, is_signal ev = false) l2) as Hquiet.
  { eapply Forall_impl; [exact Hall|]. by intros ev [->|[->|[msg ->]]]. }
  rewrite closing_line_run, Hdebug.
  destruct (debug (self s)) eqn:Hd; [destruct (temp_dir (self s'')) eqn:Htemp|];
    simpl; (split_and!; [| |done || by intros _]);
    try (eexists; rewrite Hl2, <- ?app_assoc; split; [reflexivity|];
         repeat (apply Forall_app; split); simpl;
         repeat (apply List.Forall_cons; [done|]); by try apply List.Forall_nil).
  all: first [ by left | right; by split_and! ].
Qed.

End ShutdownOutcomes.


(** A run of [close_cleans_up]: a child that gives in to [terminate]. *)
Lemma close_cleans_up_witness :
  let s := start (handle true false ∅)
             (mkFake "Linux" None
                (λ ev, match ev with Terminate => Some (-15) | _ => None end)
                empty_response attach_ok) in
  ∃ l1 l2,
    log (if loop (self s) then _async_close s else _sync_close s).2 = (log s ++ l1)%list
    ∧ log (close s).2 = (log s ++ l1 ++ PipeClose :: CleanTemp :: l2)%list
    ∧ Forall (λ ev, ev = Rmtree ∨ (∃ msg, ev = Warn msg) ∨ (∃ msg, ev = Print msg)) l2
    ∧ (self (close s).2 = self s
       ∨ (self (close s).2 = del_temp_dir (self s) ∧ Rmtree ∈ l2)).
Proof.
  apply (close_cleans_up
           (start (handle true false ∅)
              (mkFake "Linux" None
                 (λ ev, match ev with Terminate => Some (-15) | _ => None end)
                 empty_response attach_ok)));
    [by eexists|reflexivity].
Defined.

(** A run of [close_after_nonzero_exit]: the child has exited with code 1. *)
Lemma close_after_nonzero_exit_witness :
  let s := start (handle true false ∅) (exited_child "Linux" 1) in
  (∃ l, log (close s).2 = (log s ++ l)%list
     ∧ Forall (λ ev, is_signal ev = false) l)
  ∧ ((close s).1 = inr tt
     ∨ ((close s).1 = inl (AttributeError no_temp_dir)
        ∧ debug (self s) = true
        ∧ temp_dir (self (close s).2) = None))
  ∧ (debug (self s) = false → (close s).1 = inr tt).
Proof.
  apply (close_after_nonzero_exit
           (start (handle true false ∅) (exited_child "Linux" 1)) 1
           (exited_child "Linux" 1));
    [reflexivity|reflexivity|discriminate].
Defined.

(** A run of [_sync_close_graceful_nonzero]: the child exits with code 1 on
    the [Browser.close] command. *)
Lemma _sync_close_graceful_nonzero_witness :
  let s := start (handle true false ∅) (obedient_child "Linux" 1) in
  _sync_close s
  = debug_print "Browser.close method closed browser"
      (mkState (self s)
         (mkFake "Linux" (Some 1) (exits_on_close_command 1) empty_response attach_ok)
         (log s ++ [Poll] ++ [SendCommand "Browser.close" PyNone] ++ [Poll])).
Proof.
  apply (_sync_close_graceful_nonzero
           (start (handle true false ∅) (obedient_child "Linux" 1))
           (obedient_child "Linux" 1)
           (mkFake "Linux" (Some 1) (exits_on_close_command 1) empty_response attach_ok)
           (mkFake "Linux" (Some 1) (exits_on_close_command 1) empty_response attach_ok)
           (PyDict ∅) 1);
    [reflexivity|reflexivity|reflexivity|discriminate].
Defined.


(** * Further properties of the tab registry *)

Section RegistryOperations.

Context {W : Type} `{Env W}.
Implicit Types (s : state W) (r : tab_ref) (tab : Tab).

Lemma set_tabs_same (b : Browser) : set_tabs (tabs b) b = b.
Proof. by destruct b. Qed.

(** X10: [add_tab] always succeeds and leaves the tab registered under its
    identifier, replacing a tab that had it; [remove_tab] of an identifier
    that is not registered raises [KeyError] and changes nothing; and adding
    a tab whose identifier is free and then removing it, by object or by
    identifier, gives back the state as it was. *)
Theorem add_remove_tab s tab r :
  ((add_tab tab s).1 = inr tt
   ∧ tabs (self (add_tab tab s).2) !! target_id tab = Some tab
   ∧ ∀ k, k ≠ target_id tab →
       tabs (self (add_tab tab s).2) !! k = tabs (self s) !! k)
  ∧ (tabs (self s) !! ref_id r = None →
       remove_tab r s = (inl (KeyError (ref_id r)), s))
  ∧ (tabs (self s) !! target_id tab = None →
       remove_tab (ByTab tab) (add_tab tab s).2 = (inr tt, s)
       ∧ remove_tab (ById (target_id tab)) (add_tab tab s).2 = (inr tt, s)).
Proof.
  split_and!.
  - done.
  - unfold add_tab. step_run. by rewrite lookup_insert_eq.
  - intros k Hk. unfold add_tab. step_run. by rewrite lookup_insert_ne.
  - intros Hnone. unfold remove_tab. step_run. by rewrite Hnone.
  - intros Hfree. unfold remove_tab, add_tab. step_run.
    rewrite lookup_insert_eq. simpl. unfold set_tabs. simpl.
    rewrite delete_insert_id by done. destruct s as [[] ? ?]; simpl in *. done.
Qed.




(** X14: [close_tab] with a loop, on an identifier that is not registered:
    the [Target.closeTarget] command is sent all the same, and when it is
    answered the call raises [KeyError], an error payload of the response
    being dropped; when the command itself raises, that exception is the
    outcome. The registry is unchanged either way. *)
Theorem close_tab_unregistered s r (w1 : W) :
  loop (self s) = true →
  tabs (self s) !! ref_id r = None →
  let command :=
    SendCommand "Target.closeTarget" (PyDict {["targetId" := PyStr (ref_id r)]}) in
  (∀ response,
     env_send_command "Target.closeTarget"
       (PyDict {["targetId" := PyStr (ref_id r)]}) (world s) = (inr response, w1) →
     close_tab r s
     = (inl (KeyError (ref_id r)), mkState (self s) w1 (log s ++ [command])))
  ∧ (∀ e,
       env_send_command "Target.closeTarget"
         (PyDict {["targetId" := PyStr (ref_id r)]}) (world s) = (inl e, w1) →
       close_tab r s = (inl e, mkState (self s) w1 (log s ++ [command]))).
Proof.
  intros Hloop Hnone command. subst command.
  split; intros x Hsend;
    unfold close_tab, send_command, remove_tab;
    unfold bind, call, ret, raise, get_self, put_self;
    cbn [self world log]; rewrite Hloop; cbn [negb]; rewrite Hsend;
    cbn [self world log ref_id]; by rewrite ?Hnone.
Qed.

(** The loop of [populate_targets] only adds to the log. *)
Lemma populate_loop_log (targetInfos : list pyval) : ∀ s,
  ∃ l, log (populate_loop targetInfos s).2 = (log s ++ l)%list.
Proof.
  induction targetInfos as [|info rest IH]; intros s.
  { exists []. by rewrite app_nil_r. }
  rewrite populate_loop_cons.
  destruct (py_get "type" info) as [type|]; [|exists []; by rewrite app_nil_r].
  destruct (is_page type); [|apply IH].
  destruct (py_get "targetId" info) as [[| | |k| |]|];
    try (exists []; by rewrite app_nil_r).
  case_bool_decide; [apply IH|].
  destruct (env_create_session k (world s)) as [[e|sid] w']; [by eexists|].
  match goal with
  | |- context [populate_loop rest ?s0] => destruct (IH s0) as (l & ->)
  end.
  simpl. eexists. by rewrite <- !app_assoc.
Qed.

(** X15: however a run of [populate_targets] ends, with an exception
    included, every tab that was registered before is registered after it,
    unchanged: the method only ever adds. Without a loop it warns and goes
    on all the same. *)
Theorem populate_targets_only_adds s :
  tabs (self s) ⊆ tabs (self (populate_targets s).2)
  ∧ (loop (self s) = false →
     ∃ l, log (populate_targets s).2
          = (log s ++ Warn "This method requires use of an event loop (asyncio)."
                   :: SendCommand "Target.getTargets" PyNone :: l)%list).
Proof.
  unfold populate_targets, send_command, item, contains, warn, emit.
  unfold bind, call, ret, raise, get_self. cbn [self world log].
  split.
  - destruct (negb (loop (self s))); cbn [self world log];
      destruct (env_send_command _ _ _) as [[e|response] w1]; try done;
      destruct (py_contains "error" response) as [e|[]]; try done;
      destruct (py_item "result" response) as [e|found]; try done;
      destruct (py_item "targetInfos" found) as [e|targetInfos]; try done;
      destruct (py_iter targetInfos) as [e|l]; try done;
      match goal with
      | |- context [populate_loop l ?s0] =>
          destruct (populate_loop l s0) as [res s1] eqn:Hrun;
          by apply populate_loop_run in Hrun as (? & _)
      end.
  - intros ->. cbn [negb self world log].
    destruct (env_send_command _ _ _) as [[e|response] w1]; simpl;
      [exists []; by rewrite <- app_assoc|].
    destruct (py_contains "error" response) as [e|[]]; simpl;
      try (exists []; by rewrite <- app_assoc).
    destruct (py_item "result" response) as [e|found]; simpl;
      [exists []; by rewrite <- app_assoc|].
    destruct (py_item "targetInfos" found) as [e|targetInfos]; simpl;
      [exists []; by rewrite <- app_assoc|].
    destruct (py_iter targetInfos) as [e|l]; simpl;
      [exists []; by rewrite <- app_assoc|].
    match goal with
    | |- context [populate_loop l ?s0] =>
        destruct (populate_loop_log l s0) as (l' & ->)
    end.
    simpl.
    exists l'. by rewrite <- !app_assoc.
Qed.

End RegistryOperations.



(** A run of [close_tab_unregistered]: [T404] was never opened. *)
Lemma close_tab_unregistered_witness :
  let s := start (handle true true {["T1" := tab_T1]})
             (remote_browser (error_of (PyStr "No target with given id found"))) in
  let command :=
    SendCommand "Target.closeTarget" (PyDict {["targetId" := PyStr "T404"]}) in
  (∀ response,
     env_send_command "Target.closeTarget"
       (PyDict {["targetId" := PyStr "T404"]}) (world s) = (inr response, world s) →
     close_tab (ById "T404") s
     = (inl (KeyError "T404"), mkState (self s) (world s) (log s ++ [command])))
  ∧ (∀ e,
       env_send_command "Target.closeTarget"
         (PyDict {["targetId" := PyStr "T404"]}) (world s) = (inl e, world s) →
       close_tab (ById "T404") s
       = (inl e, mkState (self s) (world s) (log s ++ [command]))).
Proof.
  apply (close_tab_unregistered
           (start (handle true true {["T1" := tab_T1]})
              (remote_browser (error_of (PyStr "No target with given id found"))))
           (ById "T404")
           (remote_browser (error_of (PyStr "No target with given id found"))));
    reflexivity.
Defined.

(** A run of [create_tab_command] on a browser that is not headless. *)
Lemma create_tab_command_witness :
  let s := start (handle false true ∅) (remote_browser (PyDict ∅)) in
  ∃ params rest,
    log (create_tab (PyStr "") (PyInt 800) PyNone s).2
    = (log s
       ++ (if headless (self s) && (truthy (PyInt 800) || truthy PyNone)
           then [Warn headless_only] else [])
       ++ SendCommand "Target.createTarget" (PyDict params) :: rest)%list
    ∧ params !! "url" = Some (PyStr "")
    ∧ params !! "width"
      = (if headless (self s) then None
         else if truthy (PyInt 800) then Some (PyInt 800) else None)
    ∧ params !! "height"
      = (if headless (self s) then None
         else if truthy PyNone then Some PyNone else None).
Proof.
  apply (create_tab_command
           (start (handle false true ∅) (remote_browser (PyDict ∅)))
           (PyStr "") (PyInt 800) PyNone).
  reflexivity.
Defined.

(** * Further properties of construction and of the browser's sessions *)

(** X18: the environment that [BrowserProcess.__init__] builds for the
    child, when it does not raise: [BROWSER_PATH] holds a truthy path,
    [USER_DATA_DIR] the temporary directory, [HEADLESS] the flag
    [--headless] when headless mode is asked for and otherwise whatever the
    parent's environment has under that name, and every other variable is
    the parent's. *)
Theorem BrowserProcess_init_env (sur : surroundings) (path headless debug : pyval)
    (bp : BrowserProcess) :
  BrowserProcess_init sur path headless debug = inr bp →
  (∃ p, _env bp !! "BROWSER_PATH" = Some p ∧ truthy p = true)
  ∧ _env bp !! "USER_DATA_DIR" = Some (PyStr (temp_dir_name sur))
  ∧ _env bp !! "HEADLESS"
    = (if truthy headless then Some (PyStr "--headless")
       else PyStr <$> environ sur !! "HEADLESS")
  ∧ (∀ name, name ∉ ["BROWSER_PATH"; "USER_DATA_DIR"; "HEADLESS"] →
       _env bp !! name = PyStr <$> environ sur !! name)
  ∧ bp_headless bp = headless
  ∧ bp_debug bp = debug.
Proof.
  unfold BrowserProcess_init. cbv zeta.
  set (chosen := if negb (truthy (if negb (truthy path) then _ else path)) then _ else _).
  destruct (truthy chosen) eqn:Hchosen; [|done]. intros [= <-]. cbn [_env bp_headless bp_debug].
  split_and!; [| | | |done..].
  - exists chosen. split; [|done].
    destruct (truthy headless); repeat (rewrite lookup_insert_ne by done);
      by rewrite lookup_insert_eq.
  - destruct (truthy headless); repeat (rewrite lookup_insert_ne by done);
      by rewrite lookup_insert_eq.
  - destruct (truthy headless); [by rewrite lookup_insert_eq|].
    repeat (rewrite lookup_insert_ne by done). by rewrite lookup_fmap.
  - intros name Hname.
    assert (name ≠ "BROWSER_PATH" ∧ name ≠ "USER_DATA_DIR" ∧ name ≠ "HEADLESS")
      as (? & ? & ?) by set_solver.
    destruct (truthy headless); repeat (rewrite lookup_insert_ne by done);
      by rewrite lookup_fmap.
Qed.

(** A run of [BrowserProcess_init_env]: headless, with the override set. *)
Lemma BrowserProcess_init_env_witness :
  let bp := mkBrowserProcess (PyBool true) (PyBool false)
              (<["HEADLESS" := PyStr "--headless"]>
                 (<["USER_DATA_DIR" := PyStr "/tmp/profile"]>
                    {["BROWSER_PATH" := PyStr "/usr/bin/chromium"]})) in
  (∃ p, _env bp !! "BROWSER_PATH" = Some p ∧ truthy p = true)
  ∧ _env bp !! "USER_DATA_DIR" = Some (PyStr (temp_dir_name with_override))
  ∧ _env bp !! "HEADLESS"
    = (if truthy (PyBool true) then Some (PyStr "--headless")
       else PyStr <$> environ with_override !! "HEADLESS")
  ∧ (∀ name, name ∉ ["BROWSER_PATH"; "USER_DATA_DIR"; "HEADLESS"] →
       _env bp !! name = PyStr <$> environ with_override !! name)
  ∧ bp_headless bp = PyBool true
  ∧ bp_debug bp = PyBool false.
Proof.
  apply (BrowserProcess_init_env with_override PyNone (PyBool true) (PyBool false)).
  reflexivity.
Defined.

(** X19: [_check_session] on a notification that names a registered session
    removes that session and no other, and the same notification a second
    time raises [KeyError]: the session is gone. *)
Theorem _check_session_once {S : Type} (response : pyval)
    (sessions sessions' : gmap string S) :
  _check_session response sessions = inr sessions' →
  ∃ sid, (∃ params, py_get "params" response = Some params
                    ∧ py_get "sessionId" params = Some (PyStr sid))
    ∧ is_Some (sessions !! sid)
    ∧ sessions' = delete sid sessions
    ∧ _check_session response sessions' = inl (KeyError sid).
Proof.
  unfold _check_session. rewrite py_item_get.
  destruct (py_get "params" response) as [params|]; [|done].
  rewrite py_item_get.
  destruct (py_get "sessionId" params) as [[| | |sid| |]|] eqn:Hparams; try done.
  destruct (sessions !! sid) as [x|] eqn:Hsid; [|done]. intros [= <-].
  exists sid. split_and!; [by eexists|by eexists|done|].
  by rewrite lookup_delete_eq.
Qed.

(** A run of [_check_session_once]: the session [S1] detaches. *)
Lemma _check_session_once_witness :
  let response := PyDict {["params" := PyDict {["sessionId" := PyStr "S1"]}]} in
  let sessions : gmap string nat := <["S1" := 1%nat]> {["" := 0%nat]} in
  ∃ sid, (∃ params, py_get "params" response = Some params
                    ∧ py_get "sessionId" params = Some (PyStr sid))
    ∧ is_Some (sessions !! sid)
    ∧ ({["" := 0%nat]} : gmap string nat) = delete sid sessions
    ∧ _check_session response ({["" := 0%nat]} : gmap string nat) = inl (KeyError sid).
Proof.
  apply (_check_session_once
           (PyDict {["params" := PyDict {["sessionId" := PyStr "S1"]}]})
           (<["S1" := 1%nat]> {["" := 0%nat]}) {["" := 0%nat]}).
  reflexivity.
Defined.

Section BrowserSessions.

Context {W : Type} `{Env W} {Callback : Type}.
Implicit Types (s : state W).

(** X20: [Browser.create_session] with a loop, when the remote end answers
    the attachment without an error and names a session: the advisory is
    issued first and then the one command; a string identifier gives a new
    [Session] with that identifier, counter 0 and no subscription, which is
    handed to [add_session] and returned; any other value makes the
    [Session] constructor raise [TypeError], and [add_session] is not
    called. Without a loop the call raises before the advisory. *)
Theorem create_session_outcomes
    (add_session : session.Session Callback → M W unit) s
    (response result v : pyval) (w1 : W) :
  (loop (self s) = false →
     create_session add_session s = (inl (RuntimeError no_eventloop None), s))
  ∧ (loop (self s) = true →
     env_send_command "Target.attachToBrowserTarget" PyNone (world s)
     = (inr response, w1) →
     py_in "error" response = false →
     py_get "result" response = Some result →
     py_get "sessionId" result = Some v →
     let attached :=
       mkState (self s) w1
         (log s ++ [Warn experimental; SendCommand "Target.attachToBrowserTarget" PyNone]) in
     match v with
     | PyStr sid =>
         create_session add_session s
         = match add_session (session.mk sid 0 ∅) attached with
           | (inr _, s') => (inr (session.mk sid 0 ∅), s')
           | (inl e, s') => (inl e, s')
           end
     | _ =>
         create_session add_session s
         = (inl (TypeError session.msg_not_str), attached)
     end).
Proof.
  split.
  - intros Hloop. unfold create_session. step_run. by rewrite Hloop.
  - intros Hloop Hsend Hok Hresult Hid attached. subst attached.
    unfold create_session, send_command, item, contains, warn, emit.
    unfold bind, call, ret, raise, get_self. cbn [self world log].
    rewrite Hloop. cbn [negb self world log].
    rewrite Hsend, (py_contains_get _ _ _ _ Hresult), Hok; cbn beta iota.
    rewrite py_item_get, Hresult; cbn beta iota. rewrite py_item_get, Hid.
    rewrite <- !app_assoc. cbn [app].
    destruct v;
      first [ done
            | cbn [session.init]; by destruct (add_session _ _) as [[e|[]] s'] ].
Qed.

End BrowserSessions.
